(** * A shallow embedding of [server.js]: cache, roles, cooldown, handlers

    The server keeps one process-wide object, [LocalCache], talks to a
    remote store through the Supabase client, and answers eight HTTP
    routes.  The embedding keeps the shape of the source:

    - JavaScript values that the server forwards without looking inside
      (record rows, the aliases object, the stored sub-admin password, the
      request body) are values of [jsval];
    - every handler is a program of type [prog Response]: a finite tree of
      the effects the source performs, in source order: reads and writes of
      the [LocalCache] fields, [Date.now()], and the [await]s, which are the
      only points where the JavaScript event loop can run another handler;
    - the remote store and the clock are an interface ([Environment]); the
      theorems hold for every implementation of it.

    The Supabase client resolves each query to a [{ data, error }] object
    (the source never asks it to throw), so the only exceptions in the
    handlers are their own [throw error] statements, which the enclosing
    [catch] turns into a 500 response.  [console.log] output is not
    modelled. *)

From Stdlib Require Import ZArith List String Ascii Bool Lia.
Import ListNotations.
Local Open Scope string_scope.
Local Open Scope Z_scope.
Local Open Scope list_scope.
Local Set Warnings "-register-all".

(* ================================================================== *)
(** ** JavaScript values *)
(* ================================================================== *)

(** JSON-shaped values.  Numbers are the integers (identifiers and
    millisecond timestamps are all this server computes with) and
    [Infinity], which is what [parseInt] gives for a decimal beyond the
    largest double. *)
Inductive jsval : Type :=
| JUndefined
| JNull
| JBool (b : bool)
| JNum (n : Z)
| JStr (s : string)
| JArr (items : list jsval)
| JObj (fields : list (string * jsval))
| JInfinity.

(** ToBoolean: [undefined], [null], [false], [0] and [''] are falsy. *)
Definition truthy (v : jsval) : bool :=
  match v with
  | JUndefined | JNull => false
  | JBool b => b
  | JNum n => negb (n =? 0)
  | JStr s => negb (String.eqb s "")
  | JArr _ | JObj _ | JInfinity => true
  end.

(** [token === v] for a header value [token], which is a string when the
    header is present and [undefined] when it is not.  Strict equality
    never converts: a string equals only the same string, [undefined] only
    [undefined]. *)
Definition token_strict_equals (token : option string) (v : jsval) : bool :=
  match token, v with
  | Some t, JStr s => String.eqb t s
  | None, JUndefined => true
  | _, _ => false
  end.

(** [obj.key] on a parsed JSON object (each key occurs once): the value
    bound to [key], [undefined] when there is none. *)
Fixpoint lookup_field (key : string) (fields : list (string * jsval)) : jsval :=
  match fields with
  | [] => JUndefined
  | (k, v) :: rest => if String.eqb k key then v else lookup_field key rest
  end.

Definition js_get (key : string) (obj : jsval) : jsval :=
  match obj with
  | JObj fields => lookup_field key fields
  | _ => JUndefined
  end.

(** [null] and [undefined] have no properties: reading or deleting one
    raises a TypeError. *)
Definition nullish (v : jsval) : bool :=
  match v with
  | JUndefined | JNull => true
  | _ => false
  end.

(** [delete obj.key] on a value that is not nullish: removes the property
    from an object, and does nothing to any other value. *)
Definition js_delete (key : string) (obj : jsval) : jsval :=
  match obj with
  | JObj fields => JObj (filter (fun kv => negb (String.eqb (fst kv) key)) fields)
  | other => other
  end.

(** [/^\d+$/.test(s)]: [s] is a non-empty run of the ASCII digits. *)
Definition is_digit (c : ascii) : bool :=
  let n := nat_of_ascii c in (48 <=? n)%nat && (n <=? 57)%nat.

Fixpoint all_digits (s : string) : bool :=
  match s with
  | EmptyString => true
  | String c rest => is_digit c && all_digits rest
  end.

Definition test_decimal (s : string) : bool :=
  match s with
  | EmptyString => false
  | _ => all_digits s
  end.

(** The characters of a string. *)
Fixpoint chars (s : string) : list ascii :=
  match s with
  | EmptyString => []
  | String c rest => c :: chars rest
  end.

(** The decimal value of a string of digits, most significant first. *)
Fixpoint parse_digits (acc : Z) (s : string) : Z :=
  match s with
  | EmptyString => acc
  | String c rest => parse_digits (10 * acc + (Z.of_nat (nat_of_ascii c) - 48)) rest
  end.

Definition decimal_value (s : string) : Z := parse_digits 0 s.

(** The double nearest to a natural number, ties to the even significand:
    the number itself below 2^53; above, the 53 leading bits, rounded on
    the bits that follow.  [None] is for a result beyond the largest
    double, which is [Infinity]. *)
Definition nearest_double (n : Z) : option Z :=
  if n <? 9007199254740992 then Some n
  else
    let e := Z.log2 n - 52 in
    let q := Z.shiftr n e in
    let r := n - Z.shiftl q e in
    let half := Z.shiftl 1 (e - 1) in
    let q' := if (half <? r) || ((r =? half) && Z.odd q) then q + 1 else q in
    let rounded := Z.shiftl q' e in
    if 1024 <=? Z.log2 rounded then None else Some rounded.

(** [parseInt(s)] on a string of digits: the number that the engine makes
    of its decimal value, which is that value rounded to a double. *)
Definition parseInt (s : string) : jsval :=
  match nearest_double (decimal_value s) with
  | Some n => JNum n
  | None => JInfinity
  end.

(** [Math.ceil(x / d)] for integers [x] and [d > 0]: the quotient of two
    integers below 2^53 is rounded to the nearest double, which never
    crosses a whole number, so the ceiling is that of the exact quotient. *)
Definition Math_ceil_div (x d : Z) : Z := - ((- x) / d).

(* ================================================================== *)
(** ** The cache object and the remote store interface *)
(* ================================================================== *)

(** [LocalCache]: the fields of the shared object. *)
Record LocalCache : Type := mkCache {
  records : list jsval;
  aliases : jsval;
  subAdminPwd : jsval;
  lastSubActionTime : Z
}.

(** The object as the module creates it. *)
Definition LocalCache_init : LocalCache :=
  {| records := []; aliases := JObj []; subAdminPwd := JNull; lastSubActionTime := 0 |}.

Definition set_records (v : list jsval) (c : LocalCache) : LocalCache :=
  {| records := v; aliases := aliases c; subAdminPwd := subAdminPwd c;
     lastSubActionTime := lastSubActionTime c |}.

Definition set_aliases (v : jsval) (c : LocalCache) : LocalCache :=
  {| records := records c; aliases := v; subAdminPwd := subAdminPwd c;
     lastSubActionTime := lastSubActionTime c |}.

Definition set_subAdminPwd (v : jsval) (c : LocalCache) : LocalCache :=
  {| records := records c; aliases := aliases c; subAdminPwd := v;
     lastSubActionTime := lastSubActionTime c |}.

Definition set_lastSubActionTime (t : Z) (c : LocalCache) : LocalCache :=
  {| records := records c; aliases := aliases c; subAdminPwd := subAdminPwd c;
     lastSubActionTime := t |}.

(** The queries the server builds with the Supabase client. *)
Inductive query : Type :=
| SelectRecords
    (* from('records').select('*').order('play_date', { ascending: false }) *)
| SelectSettingValue (key : string)
    (* from('settings').select('value').eq('key', key).single() *)
| UpsertSetting (key : string) (value : jsval)
    (* from('settings').upsert({ key, value }) *)
| InsertRecord (body : jsval)
    (* from('records').insert(body) *)
| DeleteRecord (id : jsval)
    (* from('records').delete().eq('id', id) *)
| UpdateRecord (updates : jsval) (id : jsval).
    (* from('records').update(updates).eq('id', id).select() *)

(** The [error] member of a reply. *)
Record PgError : Type := mkError {
  code : string;
  message : string
}.

(** Reply to a query that returns rows: [data] is an array or [null]. *)
Record RowsReply : Type := mkRows {
  rows_data : option (list jsval);
  rows_error : option PgError
}.

(** A row of [select('value')]. *)
Record SettingRow : Type := mkSettingRow { value : jsval }.

(** Reply to a [.single()] query: [data] is one row or [null]. *)
Record SingleReply : Type := mkSingle {
  single_data : option SettingRow;
  single_error : option PgError
}.

(** Reply to a write without [.select()]: only [error] is looked at. *)
Record WriteReply : Type := mkWrite { write_error : option PgError }.

Definition reply_of (q : query) : Type :=
  match q with
  | SelectRecords => RowsReply
  | SelectSettingValue _ => SingleReply
  | UpsertSetting _ _ => WriteReply
  | InsertRecord _ => WriteReply
  | DeleteRecord _ => WriteReply
  | UpdateRecord _ _ => RowsReply
  end.

(** What the server needs from the outside world: a store that answers
    queries and a clock.  Both may change state as they are used. *)
Class Environment (E : Type) : Type := {
  respond : E -> forall q : query, reply_of q * E;
  date_now : E -> Z * E
}.

(* ================================================================== *)
(** ** Handler programs *)
(* ================================================================== *)

(** A program is the tree of effects a piece of the source performs.
    [Await], [AwaitAll3] and [AwaitReturn] are the suspension points. *)
Inductive prog (A : Type) : Type :=
| Ret (a : A)
| ReadCache (k : LocalCache -> prog A)
| WriteRecords (v : list jsval) (k : prog A)
| WriteAliases (v : jsval) (k : prog A)
| WriteSubAdminPwd (v : jsval) (k : prog A)
| WriteLastSubActionTime (t : Z) (k : prog A)
| DateNow (k : Z -> prog A)
| Await (q : query) (k : reply_of q -> prog A)
    (* await <query> *)
| AwaitAll3 (q1 q2 q3 : query)
    (k : reply_of q1 -> reply_of q2 -> reply_of q3 -> prog A)
    (* await Promise.all([q1, q2, q3]) *)
| AwaitReturn (k : prog A).
    (* await of the promise of an async function that has returned *)

Arguments Ret {A} a.
Arguments ReadCache {A} k.
Arguments WriteRecords {A} v k.
Arguments WriteAliases {A} v k.
Arguments WriteSubAdminPwd {A} v k.
Arguments WriteLastSubActionTime {A} t k.
Arguments DateNow {A} k.
Arguments Await {A} q k.
Arguments AwaitAll3 {A} q1 q2 q3 k.
Arguments AwaitReturn {A} k.

Fixpoint bind {A B : Type} (p : prog A) (f : A -> prog B) : prog B :=
  match p with
  | Ret a => f a
  | ReadCache k => ReadCache (fun c => bind (k c) f)
  | WriteRecords v k => WriteRecords v (bind k f)
  | WriteAliases v k => WriteAliases v (bind k f)
  | WriteSubAdminPwd v k => WriteSubAdminPwd v (bind k f)
  | WriteLastSubActionTime t k => WriteLastSubActionTime t (bind k f)
  | DateNow k => DateNow (fun t => bind (k t) f)
  | Await q k => Await q (fun r => bind (k r) f)
  | AwaitAll3 q1 q2 q3 k => AwaitAll3 q1 q2 q3 (fun r1 r2 r3 => bind (k r1 r2 r3) f)
  | AwaitReturn k => AwaitReturn (bind k f)
  end.

Declare Scope prog_scope.
Delimit Scope prog_scope with prog.
Notation "x <- p ;; q" := (bind p (fun x => q))
  (at level 61, p at next level, right associativity) : prog_scope.
Notation "p ;; q" := (bind p (fun _ => q))
  (at level 61, right associativity) : prog_scope.
Local Open Scope prog_scope.

Definition read_cache : prog LocalCache := ReadCache (fun c => Ret c).
Definition now_ms : prog Z := DateNow (fun t => Ret t).
Definition await (q : query) : prog (reply_of q) := Await q (fun r => Ret r).

(** [await f(...)] for an async function [f]: the body runs up to its own
    first suspension in the caller's turn, and the caller resumes in a
    later turn once [f] has returned. *)
Definition await_call {A : Type} (p : prog A) : prog A :=
  x <- p ;; AwaitReturn (Ret x).

(** [res.data || []] for the reply to the records read. *)
Definition data_or_empty (res : RowsReply) : list jsval :=
  match rows_data res with
  | Some d => d
  | None => []
  end.

(** [res.data ? res.data.value : otherwise] for the reply to a settings
    read. *)
Definition value_or (otherwise : jsval) (res : SingleReply) : jsval :=
  match single_data res with
  | Some row => value row
  | None => otherwise
  end.

(** [LocalCache.sync(forceRefresh)]. *)
Definition sync (forceRefresh : bool) : prog unit :=
  this <- read_cache ;;
  if (0 <? Z.of_nat (List.length (records this))) && negb forceRefresh then Ret tt
  else
    AwaitAll3 SelectRecords
              (SelectSettingValue "mahjong_aliases")
              (SelectSettingValue "sub_admin_password")
      (fun recordsRes aliasesRes subPwdRes =>
         WriteRecords (data_or_empty recordsRes)
        (WriteAliases (value_or (JObj []) aliasesRes)
        (WriteSubAdminPwd (value_or JNull subPwdRes)
        (Ret tt)))).

(* ================================================================== *)
(** ** Requests, responses and the middleware *)
(* ================================================================== *)

(** [req.userRole]: unset until [authMiddleware] assigns it. *)
Inductive Role : Type :=
| admin        (* 'admin' *)
| sub_admin.   (* 'sub_admin' *)

Record Request : Type := mkRequest {
  x_admin_token : option string;   (* req.headers['x-admin-token'] *)
  userRole : option Role;          (* req.userRole *)
  params_id : string;              (* req.params.id *)
  body : jsval                     (* req.body *)
}.

Definition with_userRole (r : Role) (req : Request) : Request :=
  {| x_admin_token := x_admin_token req; userRole := Some r;
     params_id := params_id req; body := body req |}.

(** The [error] texts of the source, by the statement that sends them. *)
Inductive ErrorText : Type :=
| BadPassword                    (* 401 of authMiddleware *)
| SuperAdminOnly                 (* 403 of requireSuperAdmin *)
| TooFrequent (remainingMin : Z) (* 429, with the minutes left to wait *)
| Duplicate                      (* 409 of the insert *)
| RecordNotFound                 (* 404 of the update *)
| Thrown (msg : string)          (* 500: e.message of a caught store error *)
| NoProperties.                 (* 500: e.message of the TypeError raised by
                                   taking a property of null or undefined *)

Inductive Body : Type :=
| ErrorBody (e : ErrorText)        (* { error: ... } *)
| Success                          (* { success: true } *)
| SuccessRole (role : Role)        (* { success: true, role } *)
| SuccessRecord (record : jsval)   (* { success: true, record } *)
| RecordsBody (rs : list jsval)    (* the records array *)
| ValueBody (v : jsval).           (* a JSON value as it is *)

Record Response : Type := mkResponse {
  status : Z;
  payload : Body
}.

(** [res.json(b)] and [res.status(n).json({ error })]. *)
Definition json (b : Body) : Response := {| status := 200; payload := b |}.
Definition fail (n : Z) (e : ErrorText) : Response :=
  {| status := n; payload := ErrorBody e |}.

(** [catch (e) { res.status(500).json({ error: e.message }) }]. *)
Definition catch500 (e : PgError) : prog Response :=
  Ret (fail 500 (Thrown (message e))).

(** [data[0]] of a non-empty array; [undefined] past the end. *)
Definition first_row (data : list jsval) : jsval :=
  match data with
  | r :: _ => r
  | [] => JUndefined
  end.

(** [!data || data.length === 0]. *)
Definition no_rows (data : option (list jsval)) : bool :=
  match data with
  | None => true
  | Some [] => true
  | Some (_ :: _) => false
  end.

Section Server.

(** [process.env.ADMIN_PASSWORD]. *)
Variable env_ADMIN_PASSWORD : option string.

(** [process.env.ADMIN_PASSWORD || '888888']. *)
Definition ADMIN_PASSWORD : string :=
  match env_ADMIN_PASSWORD with
  | Some s => if String.eqb s "" then "888888" else s
  | None => "888888"
  end.

Definition COOLDOWN : Z := 10 * 60 * 1000.

Definition authMiddleware (req : Request) (next : Request -> prog Response)
  : prog Response :=
  let token := x_admin_token req in
  if token_strict_equals token (JStr ADMIN_PASSWORD) then
    next (with_userRole admin req)
  else
    LocalCache <- read_cache ;;
    if truthy (subAdminPwd LocalCache)
       && token_strict_equals token (subAdminPwd LocalCache) then
      next (with_userRole sub_admin req)
    else
      Ret (fail 401 BadPassword).

Definition requireSuperAdmin (req : Request) (next : Request -> prog Response)
  : prog Response :=
  match userRole req with
  | Some admin => next req
  | _ => Ret (fail 403 SuperAdminOnly)
  end.

(** POST /api/login *)
Definition login_handler (req : Request) : prog Response :=
  match userRole req with
  | Some r => Ret (json (SuccessRole r))
  | None => Ret (json Success)
  end.

(** POST /api/settings/sub-password *)
Definition sub_password_handler (req : Request) : prog Response :=
  if nullish (body req) then Ret (fail 500 NoProperties)
  else
    let password := js_get "password" (body req) in
    r <- await (UpsertSetting "sub_admin_password" password) ;;
    match write_error r with
    | Some error => catch500 error
    | None =>
        await_call (sync true) ;;
        Ret (json Success)
    end.

(** GET /api/records.  The [catch] of the source answers 500 when
    [sync] raises; [sync] raises nothing of its own, and the replies of
    the store client are values, so the handler ends in [res.json]. *)
Definition get_records_handler (req : Request) : prog Response :=
  await_call (sync false) ;;
  LocalCache <- read_cache ;;
  Ret (json (RecordsBody (records LocalCache))).

(** POST /api/records, after the cooldown check. *)
Definition insert_record (req : Request) : prog Response :=
  r <- await (InsertRecord (body req)) ;;
  match write_error r with
  | Some error =>
      if String.eqb (code error) "23505" then Ret (fail 409 Duplicate)
      else catch500 error
  | None =>
      match userRole req with
      | Some sub_admin => t <- now_ms ;; WriteLastSubActionTime t (Ret tt)
      | _ => Ret tt
      end ;;
      await_call (sync true) ;;
      Ret (json Success)
  end.

(** POST /api/records *)
Definition post_records_handler (req : Request) : prog Response :=
  match userRole req with
  | Some sub_admin =>
      now <- now_ms ;;
      LocalCache <- read_cache ;;
      let timeDiff := now - lastSubActionTime LocalCache in
      if timeDiff <? COOLDOWN then
        let remainingMin := Math_ceil_div (COOLDOWN - timeDiff) 60000 in
        Ret (fail 429 (TooFrequent remainingMin))
      else insert_record req
  | _ => insert_record req
  end.

(** GET /api/aliases *)
Definition get_aliases_handler (req : Request) : prog Response :=
  await_call (sync false) ;;
  LocalCache <- read_cache ;;
  Ret (json (ValueBody (aliases LocalCache))).

(** POST /api/aliases *)
Definition post_aliases_handler (req : Request) : prog Response :=
  r <- await (UpsertSetting "mahjong_aliases" (body req)) ;;
  match write_error r with
  | Some error => catch500 error
  | None =>
      await_call (sync true) ;;
      Ret (json Success)
  end.

(** DELETE /api/records/:id *)
Definition delete_record_handler (req : Request) : prog Response :=
  let id := params_id req in
  r <- await (DeleteRecord (JStr id)) ;;
  match write_error r with
  | Some error => catch500 error
  | None =>
      await_call (sync true) ;;
      Ret (json Success)
  end.

(** The tail of PUT /api/records/:id, from [if (error) throw error]. *)
Definition finish_update (data : option (list jsval)) (error : option PgError)
  : prog Response :=
  match error with
  | Some e => catch500 e
  | None =>
      if no_rows data then Ret (fail 404 RecordNotFound)
      else
        await_call (sync true) ;;
        Ret (json (SuccessRecord
                     (first_row (match data with Some d => d | None => [] end))))
  end.

(** PUT /api/records/:id *)
Definition put_record_handler (req : Request) : prog Response :=
  let id := params_id req in
  if nullish (body req) then Ret (fail 500 NoProperties)
  else
    let updates := js_delete "id" (body req) in
    first <- await (UpdateRecord updates (JStr id)) ;;
    if no_rows (rows_data first) && test_decimal id then
      retry <- await (UpdateRecord updates (parseInt id)) ;;
      finish_update (rows_data retry) (rows_error retry)
    else
      finish_update (rows_data first) (rows_error first).

(** The routes: each handler behind its middleware chain. *)
Definition route_login (req : Request) : prog Response :=
  authMiddleware req login_handler.
Definition route_sub_password (req : Request) : prog Response :=
  authMiddleware req (fun req => requireSuperAdmin req sub_password_handler).
Definition route_get_records (req : Request) : prog Response :=
  get_records_handler req.
Definition route_post_records (req : Request) : prog Response :=
  authMiddleware req post_records_handler.
Definition route_get_aliases (req : Request) : prog Response :=
  get_aliases_handler req.
Definition route_post_aliases (req : Request) : prog Response :=
  authMiddleware req (fun req => requireSuperAdmin req post_aliases_handler).
Definition route_delete_record (req : Request) : prog Response :=
  authMiddleware req (fun req => requireSuperAdmin req delete_record_handler).
Definition route_put_record (req : Request) : prog Response :=
  authMiddleware req (fun req => requireSuperAdmin req put_record_handler).

End Server.

(* ================================================================== *)
(** ** Running one request to completion *)
(* ================================================================== *)

(** The world a request runs in: the shared cache, the environment, and the
    store queries issued so far, oldest first. *)
Record World (E : Type) : Type := mkWorld {
  cache : LocalCache;
  env : E;
  issued : list query
}.

Arguments mkWorld {E} cache env issued.
Arguments cache {E} w.
Arguments env {E} w.
Arguments issued {E} w.

Section Run.

Context {E : Type} {Env : Environment E}.

Definition with_cache (f : LocalCache -> LocalCache) (w : World E) : World E :=
  {| cache := f (cache w); env := env w; issued := issued w |}.

(** [Date.now()]: the clock's answer and the world after asking. *)
Definition clock_value (w : World E) : Z := fst (date_now (env w)).
Definition after_clock (w : World E) : World E :=
  {| cache := cache w; env := snd (date_now (env w)); issued := issued w |}.

(** One query: the store's answer and the world after it was issued. *)
Definition answer (q : query) (w : World E) : reply_of q :=
  fst (respond (env w) q).
Definition after_query (q : query) (w : World E) : World E :=
  {| cache := cache w; env := snd (respond (env w) q); issued := issued w ++ [q] |}.

(** Runs a program with no other request in between.  The three queries
    of a [Promise.all] are answered in the order they were issued. *)
Fixpoint run {A : Type} (p : prog A) (w : World E) : A * World E :=
  match p with
  | Ret a => (a, w)
  | ReadCache k => run (k (cache w)) w
  | WriteRecords v k => run k (with_cache (set_records v) w)
  | WriteAliases v k => run k (with_cache (set_aliases v) w)
  | WriteSubAdminPwd v k => run k (with_cache (set_subAdminPwd v) w)
  | WriteLastSubActionTime t k => run k (with_cache (set_lastSubActionTime t) w)
  | DateNow k => run (k (clock_value w)) (after_clock w)
  | Await q k => run (k (answer q w)) (after_query q w)
  | AwaitAll3 q1 q2 q3 k =>
      let w1 := after_query q1 w in
      let w2 := after_query q2 w1 in
      run (k (answer q1 w) (answer q2 w1) (answer q3 w2)) (after_query q3 w2)
  | AwaitReturn k => run k w
  end.

(** The cache after a resync has stored the three replies. *)
Definition loaded (recordsRes : RowsReply) (aliasesRes subPwdRes : SingleReply)
    (c : LocalCache) : LocalCache :=
  {| records := data_or_empty recordsRes;
     aliases := value_or (JObj []) aliasesRes;
     subAdminPwd := value_or JNull subPwdRes;
     lastSubActionTime := lastSubActionTime c |}.

(** The three reads of a resync, in the order of the source. *)
Definition sync_reads : list query :=
  [SelectRecords; SelectSettingValue "mahjong_aliases";
   SelectSettingValue "sub_admin_password"].

(** The world after a resync that was not skipped. *)
Definition resynced (w : World E) : World E :=
  let w1 := after_query SelectRecords w in
  let w2 := after_query (SelectSettingValue "mahjong_aliases") w1 in
  let w3 := after_query (SelectSettingValue "sub_admin_password") w2 in
  with_cache
    (loaded (answer SelectRecords w)
            (answer (SelectSettingValue "mahjong_aliases") w1)
            (answer (SelectSettingValue "sub_admin_password") w2))
    w3.

End Run.

(* ================================================================== *)
(** ** A scripted environment, for running the handlers on examples *)
(* ================================================================== *)

(** A test double of the store and the clock: each kind of reply is taken
    from a list prepared in advance, in order. *)
Record Script : Type := mkScript {
  rows_replies : list RowsReply;
  single_replies : list SingleReply;
  write_replies : list WriteReply;
  clock_ticks : list Z
}.

Definition next_rows (s : Script) : RowsReply * Script :=
  match rows_replies s with
  | r :: rest => (r, mkScript rest (single_replies s) (write_replies s) (clock_ticks s))
  | [] => (mkRows (Some []) None, s)
  end.

Definition next_single (s : Script) : SingleReply * Script :=
  match single_replies s with
  | r :: rest => (r, mkScript (rows_replies s) rest (write_replies s) (clock_ticks s))
  | [] => (mkSingle None None, s)
  end.

Definition next_write (s : Script) : WriteReply * Script :=
  match write_replies s with
  | r :: rest => (r, mkScript (rows_replies s) (single_replies s) rest (clock_ticks s))
  | [] => (mkWrite None, s)
  end.

Definition next_tick (s : Script) : Z * Script :=
  match clock_ticks s with
  | t :: rest => (t, mkScript (rows_replies s) (single_replies s) (write_replies s) rest)
  | [] => (0, s)
  end.

Definition script_respond (s : Script) (q : query) : reply_of q * Script :=
  match q return reply_of q * Script with
  | SelectRecords => next_rows s
  | SelectSettingValue _ => next_single s
  | UpsertSetting _ _ => next_write s
  | InsertRecord _ => next_write s
  | DeleteRecord _ => next_write s
  | UpdateRecord _ _ => next_rows s
  end.

#[global] Instance Script_Environment : Environment Script :=
  {| respond := script_respond; date_now := next_tick |}.

(** A script with no prepared replies: every read finds nothing, every
    write succeeds, the clock shows the given ticks. *)
Definition quiet (ticks : list Z) : Script := mkScript [] [] [] ticks.

(** Some rows and errors for the examples. *)
Definition row (id : jsval) (east : Z) : jsval :=
  JObj [("id", id); ("play_date", JStr "2024-05-01"); ("east", JNum east)].

Definition unique_violation : PgError :=
  {| code := "23505"; message := "duplicate key value violates unique constraint" |}.

Definition bad_uuid : PgError :=
  {| code := "22P02"; message := "invalid input syntax for type uuid" |}.

Definition timeout_error : PgError :=
  {| code := "57014"; message := "canceling statement due to statement timeout" |}.

(** The cached sub-admin password accepts the presented token: it is a
    non-empty string and the token is that string. *)
Definition sub_secret_matches (c : LocalCache) (token : option string) : Prop :=
  exists s, subAdminPwd c = JStr s /\ s <> "" /\ token = Some s.


Section Stamped.

Context {E : Type} {Env : Environment E}.

(** The world in which the insert's success has been recorded: for a
    sub-admin the clock is read and the timestamp stored. *)
Definition stamped (role : option Role) (w : World E) : World E :=
  match role with
  | Some sub_admin => with_cache (set_lastSubActionTime (clock_value w)) (after_clock w)
  | _ => w
  end.

End Stamped.

(* ================================================================== *)
(** ** Requests served concurrently: the event loop *)
(* ================================================================== *)

(** The routes of the server. *)
Inductive Route : Type :=
| PostLogin | PostSubPassword | GetRecords | PostRecords
| GetAliases | PostAliases | DeleteRecordById | PutRecordById.

Definition serve (pw : option string) (rt : Route) (req : Request) : prog Response :=
  match rt with
  | PostLogin => route_login pw req
  | PostSubPassword => route_sub_password pw req
  | GetRecords => route_get_records req
  | PostRecords => route_post_records pw req
  | GetAliases => route_get_aliases req
  | PostAliases => route_post_aliases pw req
  | DeleteRecordById => route_delete_record pw req
  | PutRecordById => route_put_record pw req
  end.

(** What the event loop has in flight: a request being served gives its
    response when it finishes; the start-up resync gives none. *)
Definition Task : Type := prog (option Response).

Definition request_task (pw : option string) (rt : Route) (req : Request) : Task :=
  resp <- serve pw rt req ;; Ret (Some resp).

(** [LocalCache.sync(true)] in the callback of [app.listen]. *)
Definition startup_task : Task := sync true ;; Ret None.

(** The replies that one [Promise.all] received together. *)
Inductive Batch : Type :=
| mkBatch (q1 q2 q3 : query)
          (r1 : reply_of q1) (r2 : reply_of q2) (r3 : reply_of q3).

(** The part of the cache that a resync replaces. *)
Definition snapshot (c : LocalCache) : list jsval * jsval * jsval :=
  (records c, aliases c, subAdminPwd c).

Section EventLoop.

Context {E : Type} {Env : Environment E}.

(** One turn: JavaScript runs a task without interruption until it
    finishes or reaches an [await]. *)
Fixpoint turn {A : Type} (p : prog A) (c : LocalCache) (e : E)
  : prog A * (LocalCache * E) :=
  match p with
  | ReadCache k => turn (k c) c e
  | WriteRecords v k => turn k (set_records v c) e
  | WriteAliases v k => turn k (set_aliases v c) e
  | WriteSubAdminPwd v k => turn k (set_subAdminPwd v c) e
  | WriteLastSubActionTime t k => turn k (set_lastSubActionTime t c) e
  | DateNow k => turn (k (fst (date_now e))) c (snd (date_now e))
  | Ret _ | Await _ _ | AwaitAll3 _ _ _ _ | AwaitReturn _ => (p, (c, e))
  end.

(** What a suspended task continues with once the promise it awaits has
    settled; [None] for a task that has finished. *)
Definition resume {A : Type} (p : prog A) (e : E)
  : option (prog A * E * list Batch) :=
  match p with
  | Await q k =>
      let (r, e1) := respond e q in
      Some (k r, e1, [])
  | AwaitAll3 q1 q2 q3 k =>
      let (r1, e1) := respond e q1 in
      let (r2, e2) := respond e1 q2 in
      let (r3, e3) := respond e2 q3 in
      Some (k r1 r2 r3, e3, [mkBatch q1 q2 q3 r1 r2 r3])
  | AwaitReturn k => Some (k, e, [])
  | _ => None
  end.

(** The state between two turns. *)
Record Loop : Type := mkLoop {
  shared : LocalCache;            (* the LocalCache object *)
  outside : E;                    (* the store and the clock *)
  pool : list Task;               (* tasks, each waiting or finished *)
  delivered : list Batch          (* Promise.all results so far *)
}.

Fixpoint replace_nth {A : Type} (i : nat) (x : A) (l : list A) : list A :=
  match l, i with
  | [], _ => []
  | _ :: rest, O => x :: rest
  | y :: rest, S i' => y :: replace_nth i' x rest
  end.

(** What can happen next: a request arrives and its handler runs its
    first turn, or a waiting task is resumed for one turn. *)
Inductive Event : Type :=
| Arrive (rt : Route) (req : Request)
| Resume (i : nat).

Variable pw : option string.

Definition loop_step (l : Loop) (ev : Event) : Loop :=
  match ev with
  | Arrive rt req =>
      let '(p, (c, e)) := turn (request_task pw rt req) (shared l) (outside l) in
      {| shared := c; outside := e; pool := pool l ++ [p];
         delivered := delivered l |}
  | Resume i =>
      match nth_error (pool l) i with
      | Some parked =>
          match resume parked (outside l) with
          | Some (p1, e1, batch) =>
              let '(p, (c, e)) := turn p1 (shared l) e1 in
              {| shared := c; outside := e; pool := replace_nth i p (pool l);
                 delivered := delivered l ++ batch |}
          | None => l
          end
      | None => l
      end
  end.

Definition event_loop (l : Loop) (schedule : list Event) : Loop :=
  fold_left loop_step schedule l.

(** A task that the event loop runs with nothing else in flight: turns and
    resumptions alternate until the task has finished.  [fuel] bounds the
    number of resumptions. *)
Fixpoint alone {A : Type} (fuel : nat) (p : prog A) (c : LocalCache) (e : E)
  : option (A * (LocalCache * E)) :=
  match turn p c e with
  | (Ret a, state) => Some (a, state)
  | (parked, (c', e')) =>
      match fuel with
      | O => None
      | S fuel' =>
          match resume parked e' with
          | Some (p1, e1, _) => alone fuel' p1 c' e1
          | None => None
          end
      end
  end.

(** The server once [app.listen] has called back: the cache as created,
    the start-up resync waiting for its reads. *)
Definition booted (e : E) : Loop :=
  let '(p, (c, e')) := turn startup_task LocalCache_init e in
  {| shared := c; outside := e'; pool := [p]; delivered := [] |}.

End EventLoop.

Arguments Loop E : clear implicits.

(** [b] is the result of the three reads of a resync, and [s] is the
    snapshot that the resync builds from it. *)
Inductive batch_snapshot : Batch -> list jsval * jsval * jsval -> Prop :=
| batch_of_sync (r1 : RowsReply) (r2 r3 : SingleReply) :
    batch_snapshot
      (mkBatch SelectRecords (SelectSettingValue "mahjong_aliases")
               (SelectSettingValue "sub_admin_password") r1 r2 r3)
      (data_or_empty r1, value_or (JObj []) r2, value_or JNull r3).

(** Between turns the cache holds either the snapshot [old], or the
    complete snapshot of one resync. *)
Definition whole_snapshot {E : Type} (old : list jsval * jsval * jsval)
    (l : Loop E) : Prop :=
  snapshot (shared l) = old
  \/ exists b, In b (delivered l) /\ batch_snapshot b (snapshot (shared l)).

(** Tasks that write the three cached collections only as a resync does:
    all three in the turn that receives the three replies. *)
Inductive tidy {A : Type} : prog A -> Prop :=
| tidy_Ret (a : A) : tidy (Ret a)
| tidy_ReadCache k : (forall c, tidy (k c)) -> tidy (ReadCache k)
| tidy_WriteTime t k : tidy k -> tidy (WriteLastSubActionTime t k)
| tidy_DateNow k : (forall t, tidy (k t)) -> tidy (DateNow k)
| tidy_Await q k : (forall r, tidy (k r)) -> tidy (Await q k)
| tidy_AwaitReturn k : tidy k -> tidy (AwaitReturn k)
| tidy_reload (k : RowsReply -> SingleReply -> SingleReply -> prog A) :
    (forall r1 r2 r3, tidy (k r1 r2 r3)) ->
    tidy (AwaitAll3 SelectRecords (SelectSettingValue "mahjong_aliases")
                    (SelectSettingValue "sub_admin_password")
            (fun r1 r2 r3 =>
               WriteRecords (data_or_empty r1)
              (WriteAliases (value_or (JObj []) r2)
              (WriteSubAdminPwd (value_or JNull r3)
              (k r1 r2 r3))))).

(** What holds between any two turns of the event loop. *)
Definition loop_invariant {E : Type} (old : list jsval * jsval * jsval)
    (l : Loop E) : Prop :=
  whole_snapshot old l /\ Forall tidy (pool l).

(* ================================================================== *)
(** ** Example requests and worlds *)
(* ================================================================== *)

(** A request as Express hands it to the first middleware. *)
Definition request (token : option string) (id : string) (b : jsval) : Request :=
  {| x_admin_token := token; userRole := None; params_id := id; body := b |}.

(** A cache holding one record, with the given sub-admin password and
    time of the last sub-admin write. *)
Definition cache_with (pwd : jsval) (last : Z) : LocalCache :=
  {| records := [row (JNum 1) 25000]; aliases := JObj [];
     subAdminPwd := pwd; lastSubActionTime := last |}.

Definition world (c : LocalCache) (s : Script) : World Script :=
  {| cache := c; env := s; issued := [] |}.

(** A moment on the clock, in milliseconds. *)
Definition noon : Z := 1700000000000.

(** A store whose next rows replies are the given ones. *)
Definition answering (replies : list RowsReply) : Script :=
  mkScript replies [] [] [].

(** A store whose next write reports the given error. *)
Definition refusing (error : PgError) (ticks : list Z) : Script :=
  mkScript [] [] [mkWrite (Some error)] ticks.

(** Requests used in the examples. *)
Definition new_game : jsval := row (JNum 2) 30000.

Definition sub_admin_post : Request := request (Some "abc123") "" new_game.
Definition admin_post : Request := request (Some "888888") "" new_game.

Definition as_role (r : Role) (req : Request) : Request := with_userRole r req.

Definition put_42 : Request :=
  as_role admin (request (Some "888888") "42" (row (JStr "42") 32000)).
Definition put_abc : Request :=
  as_role admin (request (Some "888888") "abc" (row (JStr "abc") 32000)).
Definition delete_99 : Request :=
  as_role admin (request (Some "888888") "99" JNull).

(** An identifier beyond 2^53, where not every integer is a double. *)
Definition put_big : Request :=
  as_role admin
    (request (Some "888888") "9007199254740993" (row (JStr "9007199254740993") 32000)).

(** The update that [put_42] sends: its body without [id]. *)
Definition updates_42 : jsval :=
  JObj [("play_date", JStr "2024-05-01"); ("east", JNum 32000)].

(* ================================================================== *)
(** ** Queries by kind, waiting tasks, status codes *)
(* ================================================================== *)

(** A query that only reads the store. *)
Definition is_read (q : query) : bool :=
  match q with
  | SelectRecords | SelectSettingValue _ => true
  | _ => false
  end.

(** The queries that a suspended task is waiting for. *)
Definition awaited {A : Type} (p : prog A) : list query :=
  match p with
  | Await q _ => [q]
  | AwaitAll3 q1 q2 q3 _ => [q1; q2; q3]
  | _ => []
  end.

(** The status codes that the handler and the middleware of a route send. *)
Definition statuses (rt : Route) : list Z :=
  match rt with
  | PostLogin => [200; 401]
  | GetRecords => [200; 500]
  | GetAliases => [200]
  | PostRecords => [200; 401; 409; 429; 500]
  | PostAliases | PostSubPassword | DeleteRecordById => [200; 401; 403; 500]
  | PutRecordById => [200; 401; 403; 404; 500]
  end.

(* ================================================================== *)
(** ** More example requests, stores and loop states *)
(* ================================================================== *)

(** A store whose settings reads return the given replies, the aliases
    first and the password second as a resync asks for them. *)
Definition with_settings (replies : list SingleReply) (ticks : list Z) : Script :=
  mkScript [] replies [] ticks.

(** The reply of a settings read that found the given value. *)
Definition found (v : jsval) : SingleReply :=
  mkSingle (Some (mkSettingRow v)) None.

Definition login_as (token : string) : Request := request (Some token) "" JNull.

Definition new_aliases : jsval := JObj [("East", JStr "Dong")].
Definition admin_aliases : Request := request (Some "888888") "" new_aliases.

Definition admin_password (b : jsval) : Request := request (Some "888888") "" b.

(** Two sub-admin requests arriving in the same millisecond, an hour and
    more after the last sub-admin write. *)
Definition idle_loop : Loop Script :=
  {| shared := cache_with (JStr "abc123") 0;
     outside := quiet [noon; noon];
     pool := [];
     delivered := [] |}.

(* ================================================================== *)
(** ** The server without the cache *)
(* ================================================================== *)

(** The second copy of [server.js] in the repository: the same routes
    (all but the sub-admin password) served straight from the store, with
    one password and no cache.  Its handlers are programs over the same
    effects; they use none of the cache effects. *)
Module Uncached.

(** The [error] texts of this copy, by the statement that sends them. *)
Inductive ErrorText : Type :=
| WrongPassword            (* 401 of authMiddleware *)
| Duplicate                (* 409 of the insert *)
| NotFoundOrForbidden      (* 404 of the update *)
| Thrown (msg : string)    (* 500: e.message of a caught store error *)
| NoProperties             (* 500: TypeError of [delete updates.id] on a
                              null or undefined body *)
| NoLength.                (* 500: TypeError of [data.length] on null *)

Inductive Body : Type :=
| ErrorBody (e : ErrorText)               (* { error: ... } *)
| Success                                 (* { success: true } *)
| Verified                                (* { success: true, message } *)
| SuccessRecord (record : jsval)          (* { success: true, record } *)
| DataBody (data : option (list jsval))   (* the [data] of the read, as it is *)
| ValueBody (v : jsval).                  (* a JSON value as it is *)

Record Response : Type := mkResponse {
  status : Z;
  payload : Body
}.

Definition json (b : Body) : Response := {| status := 200; payload := b |}.
Definition fail (n : Z) (e : ErrorText) : Response :=
  {| status := n; payload := ErrorBody e |}.

Definition catch500 (e : PgError) : prog Response :=
  Ret (fail 500 (Thrown (message e))).

Section Server.

Variable env_ADMIN_PASSWORD : option string.

Definition authMiddleware (req : Request) (next : Request -> prog Response)
  : prog Response :=
  let token := x_admin_token req in
  if token_strict_equals token (JStr (ADMIN_PASSWORD env_ADMIN_PASSWORD)) then
    next req
  else
    Ret (fail 401 WrongPassword).

(** POST /api/login *)
Definition login_handler (req : Request) : prog Response :=
  Ret (json Verified).

(** GET /api/records *)
Definition get_records_handler (req : Request) : prog Response :=
  r <- await SelectRecords ;;
  match rows_error r with
  | Some error => catch500 error
  | None => Ret (json (DataBody (rows_data r)))
  end.

(** POST /api/records *)
Definition post_records_handler (req : Request) : prog Response :=
  r <- await (InsertRecord (body req)) ;;
  match write_error r with
  | Some error =>
      if String.eqb (code error) "23505" then Ret (fail 409 Duplicate)
      else catch500 error
  | None => Ret (json Success)
  end.

(** GET /api/aliases: [res.json(data?.value || {})]. *)
Definition get_aliases_handler (req : Request) : prog Response :=
  r <- await (SelectSettingValue "mahjong_aliases") ;;
  let v := match single_data r with
           | Some row => value row
           | None => JUndefined
           end in
  Ret (json (ValueBody (if truthy v then v else JObj []))).

(** POST /api/aliases *)
Definition post_aliases_handler (req : Request) : prog Response :=
  r <- await (UpsertSetting "mahjong_aliases" (body req)) ;;
  match write_error r with
  | Some error => catch500 error
  | None => Ret (json Success)
  end.

(** DELETE /api/records/:id *)
Definition delete_record_handler (req : Request) : prog Response :=
  let id := params_id req in
  r <- await (DeleteRecord (JStr id)) ;;
  match write_error r with
  | Some error => catch500 error
  | None => Ret (json Success)
  end.

(** PUT /api/records/:id *)
Definition put_record_handler (req : Request) : prog Response :=
  let id := params_id req in
  if nullish (body req) then Ret (fail 500 NoProperties)
  else
    let updates := js_delete "id" (body req) in
    r <- await (UpdateRecord updates (JStr id)) ;;
    match rows_error r with
    | Some error => catch500 error
    | None =>
        match rows_data r with
        | None => Ret (fail 500 NoLength)
        | Some [] => Ret (fail 404 NotFoundOrForbidden)
        | Some (record :: _) => Ret (json (SuccessRecord record))
        end
    end.

(** The routes of this copy. *)
Inductive Route : Type :=
| PostLogin | GetRecords | PostRecords
| GetAliases | PostAliases | DeleteRecordById | PutRecordById.

Definition serve (rt : Route) (req : Request) : prog Response :=
  match rt with
  | PostLogin => authMiddleware req login_handler
  | GetRecords => get_records_handler req
  | PostRecords => authMiddleware req post_records_handler
  | GetAliases => get_aliases_handler req
  | PostAliases => authMiddleware req post_aliases_handler
  | DeleteRecordById => authMiddleware req delete_record_handler
  | PutRecordById => authMiddleware req put_record_handler
  end.

(** Whether a route is behind [authMiddleware]. *)
Definition guarded (rt : Route) : bool :=
  match rt with
  | GetRecords | GetAliases => false
  | _ => true
  end.

End Server.

End Uncached.

(** The route of the cached server that took the place of a route of the
    uncached one. *)
Definition successor (rt : Uncached.Route) : Route :=
  match rt with
  | Uncached.PostLogin => PostLogin
  | Uncached.GetRecords => GetRecords
  | Uncached.PostRecords => PostRecords
  | Uncached.GetAliases => GetAliases
  | Uncached.PostAliases => PostAliases
  | Uncached.DeleteRecordById => DeleteRecordById
  | Uncached.PutRecordById => PutRecordById
  end.
(* ================================================================== *)
(** ** Basic facts about [run] *)
(* ================================================================== *)

Arguments sync : simpl never.
Arguments await_call : simpl never.
Arguments Math_ceil_div : simpl never.
Arguments COOLDOWN : simpl never.
Arguments parseInt : simpl never.
Arguments nearest_double : simpl never.

Section RunFacts.

Context {E : Type} {Env : Environment E}.

Lemma run_bind {A B : Type} (p : prog A) (f : A -> prog B) (w : World E) :
  run (bind p f) w = run (f (fst (run p w))) (snd (run p w)).
Proof.
  revert w; induction p as
    [a | k IH | v k IH | v k IH | v k IH | t k IH | k IH | q k IH
     | q1 q2 q3 k IH | k IH]; intros w; cbn; auto.
Qed.

Lemma run_await_call {A : Type} (p : prog A) (w : World E) :
  run (await_call p) w = run p w.
Proof.
  unfold await_call. rewrite run_bind. cbn. now destruct (run p w).
Qed.

Lemma with_cache_loaded_cache r1 r2 r3 (w : World E) :
  cache (with_cache (loaded r1 r2 r3) w) = loaded r1 r2 r3 (cache w).
Proof. reflexivity. Qed.

(** A forced resync, or one on an empty cache, reloads everything. *)
Lemma run_sync_reload (forceRefresh : bool) (w : World E) :
  forceRefresh = true \/ records (cache w) = [] ->
  run (sync forceRefresh) w = (tt, resynced w).
Proof.
  intros H. unfold sync. cbn.
  assert (G : ((0 <? Z.of_nat (List.length (records (cache w))))
               && negb forceRefresh)%bool = false).
  { destruct H as [-> | ->]; cbn.
    - apply andb_false_r.
    - reflexivity. }
  rewrite G. cbn. unfold resynced, with_cache, loaded. cbn. reflexivity.
Qed.

(** A lazy resync on a populated cache does nothing. *)
Lemma run_sync_skip (w : World E) :
  records (cache w) <> [] -> run (sync false) w = (tt, w).
Proof.
  intros H. unfold sync. cbn.
  destruct (records (cache w)) as [| r rest] eqn:R; [congruence |].
  cbn [List.length]. rewrite Nat2Z.inj_succ.
  replace (0 <? Z.succ (Z.of_nat (List.length rest))) with true
    by (symmetry; apply Z.ltb_lt; lia).
  reflexivity.
Qed.

Lemma issued_resynced (w : World E) :
  issued (resynced w) = issued w ++ sync_reads.
Proof.
  unfold resynced, sync_reads. cbn. now rewrite <- !app_assoc.
Qed.

Lemma lastSubActionTime_resynced (w : World E) :
  lastSubActionTime (cache (resynced w)) = lastSubActionTime (cache w).
Proof. reflexivity. Qed.

End RunFacts.

(* ================================================================== *)
(** ** Credentials and roles *)
(* ================================================================== *)

Section AuthFacts.

Context {E : Type} {Env : Environment E}.
Variable pw : option string.

Lemma ADMIN_PASSWORD_nonempty : ADMIN_PASSWORD pw <> "".
Proof.
  unfold ADMIN_PASSWORD. destruct pw as [s |]; [| discriminate].
  destruct (String.eqb s "") eqn:Q; [discriminate |].
  now apply String.eqb_neq.
Qed.

Lemma token_equals_string (token : option string) (s : string) :
  token_strict_equals token (JStr s) = true <-> token = Some s.
Proof.
  destruct token as [t |]; cbn.
  - rewrite String.eqb_eq. split; congruence.
  - split; discriminate.
Qed.

Lemma accepts_sub_secret (c : LocalCache) (token : option string) :
  (truthy (subAdminPwd c) && token_strict_equals token (subAdminPwd c))%bool = true
  <-> sub_secret_matches c token.
Proof.
  unfold sub_secret_matches. rewrite andb_true_iff. split.
  - intros [T Q]. destruct (subAdminPwd c) as [| | b | n | s | l | l |];
      try (destruct token; discriminate).
    exists s. repeat split.
    + cbn in T. apply negb_true_iff, String.eqb_neq in T. exact T.
    + now apply token_equals_string.
  - intros (s & -> & Hs & ->). cbn. split.
    + now apply negb_true_iff, String.eqb_neq.
    + apply String.eqb_refl.
Qed.

Lemma auth_admin (req : Request) (next : Request -> prog Response) (w : World E) :
  x_admin_token req = Some (ADMIN_PASSWORD pw) ->
  run (authMiddleware pw req next) w = run (next (with_userRole admin req)) w.
Proof.
  intros H. unfold authMiddleware.
  apply token_equals_string in H. now rewrite H.
Qed.

Lemma auth_sub_admin (req : Request) (next : Request -> prog Response) (w : World E) :
  x_admin_token req <> Some (ADMIN_PASSWORD pw) ->
  sub_secret_matches (cache w) (x_admin_token req) ->
  run (authMiddleware pw req next) w = run (next (with_userRole sub_admin req)) w.
Proof.
  intros N S. unfold authMiddleware.
  destruct (token_strict_equals (x_admin_token req) (JStr (ADMIN_PASSWORD pw))) eqn:Q.
  - apply token_equals_string in Q. contradiction.
  - cbn. apply accepts_sub_secret in S. now rewrite S.
Qed.

Lemma auth_rejected (req : Request) (next : Request -> prog Response) (w : World E) :
  x_admin_token req <> Some (ADMIN_PASSWORD pw) ->
  ~ sub_secret_matches (cache w) (x_admin_token req) ->
  run (authMiddleware pw req next) w = (fail 401 BadPassword, w).
Proof.
  intros N S. unfold authMiddleware.
  destruct (token_strict_equals (x_admin_token req) (JStr (ADMIN_PASSWORD pw))) eqn:Q.
  - apply token_equals_string in Q. contradiction.
  - cbn.
    destruct (truthy (subAdminPwd (cache w))
              && token_strict_equals (x_admin_token req) (subAdminPwd (cache w)))%bool
      eqn:T; [| reflexivity].
    apply accepts_sub_secret in T. contradiction.
Qed.

Lemma no_sub_secret (c : LocalCache) (token : option string) :
  subAdminPwd c = JNull \/ subAdminPwd c = JUndefined \/ subAdminPwd c = JStr "" ->
  ~ sub_secret_matches c token.
Proof.
  intros H (s & Q & Hs & _). destruct H as [H | [H | H]]; rewrite H in Q;
    try discriminate.
  injection Q as <-. now apply Hs.
Qed.

Lemma run_requireSuperAdmin (req : Request) (next : Request -> prog Response)
    (w : World E) :
  run (requireSuperAdmin req next) w =
    match userRole req with
    | Some admin => run (next req) w
    | _ => (fail 403 SuperAdminOnly, w)
    end.
Proof. unfold requireSuperAdmin. now destruct (userRole req) as [[|] |]. Qed.

(** C1.  [authMiddleware] resolves the role of a request from its token:
    the configured super-admin secret gives 'admin', also when the cached
    sub-admin password is the same string; any other token that is the
    cached, non-empty sub-admin password gives 'sub_admin'; everything
    else is answered 401 and the next handler is not run.  With the cached
    password null, undefined or the empty string, a token that is not the
    super-admin secret is always answered 401. *)
Theorem role_resolution (req : Request) (next : Request -> prog Response)
    (w : World E) :
  let token := x_admin_token req in
  let secret := ADMIN_PASSWORD pw in
  let resolved := run (authMiddleware pw req next) w in
  (token = Some secret ->
     resolved = run (next (with_userRole admin req)) w)
  /\ (token <> Some secret -> sub_secret_matches (cache w) token ->
     resolved = run (next (with_userRole sub_admin req)) w)
  /\ (token <> Some secret -> ~ sub_secret_matches (cache w) token ->
     resolved = (fail 401 BadPassword, w))
  /\ (subAdminPwd (cache w) = JNull \/ subAdminPwd (cache w) = JUndefined
      \/ subAdminPwd (cache w) = JStr "" ->
      token <> Some secret ->
      resolved = (fail 401 BadPassword, w)).
Proof.
  cbv zeta. repeat split.
  - apply auth_admin.
  - apply auth_sub_admin.
  - apply auth_rejected.
  - intros H N. apply auth_rejected; [exact N | now apply no_sub_secret].
Qed.

(** C7.  [requireSuperAdmin] lets a request through only when its role is
    'admin'.  On each of the four super-admin routes (alias write,
    sub-admin password write, record update, record delete) a token that
    resolves to 'sub_admin' is answered 403, not 401, and neither the
    store nor the cache is touched. *)
Theorem sub_admin_forbidden (req : Request) (next : Request -> prog Response)
    (w : World E) :
  (run (requireSuperAdmin req next) w =
     match userRole req with
     | Some admin => run (next req) w
     | _ => (fail 403 SuperAdminOnly, w)
     end)
  /\ (x_admin_token req <> Some (ADMIN_PASSWORD pw) ->
      sub_secret_matches (cache w) (x_admin_token req) ->
      run (route_post_aliases pw req) w = (fail 403 SuperAdminOnly, w)
      /\ run (route_sub_password pw req) w = (fail 403 SuperAdminOnly, w)
      /\ run (route_put_record pw req) w = (fail 403 SuperAdminOnly, w)
      /\ run (route_delete_record pw req) w = (fail 403 SuperAdminOnly, w)).
Proof.
  split; [apply run_requireSuperAdmin |].
  intros N S.
  unfold route_post_aliases, route_sub_password, route_put_record,
    route_delete_record.
  rewrite !(auth_sub_admin _ _ _ N S), !run_requireSuperAdmin.
  cbn. auto.
Qed.

End AuthFacts.

(* ================================================================== *)
(** ** The handlers, run to completion *)
(* ================================================================== *)

Section HandlerFacts.

Context {E : Type} {Env : Environment E}.
Variable pw : option string.

Lemma run_awaited_sync (w : World E) :
  run (await_call (sync true)) w = (tt, resynced w).
Proof. rewrite run_await_call. apply run_sync_reload. now left. Qed.

Lemma run_insert_record (req : Request) (w : World E) :
  run (insert_record req) w =
    let q := InsertRecord (body req) in
    match write_error (answer q w) with
    | Some error =>
        (if String.eqb (code error) "23505" then fail 409 Duplicate
         else fail 500 (Thrown (message error)),
         after_query q w)
    | None => (json Success, resynced (stamped (userRole req) (after_query q w)))
    end.
Proof.
  unfold insert_record. rewrite run_bind. cbn.
  destruct (write_error (answer (InsertRecord (body req)) w)) as [error |].
  - now destruct (String.eqb (code error) "23505").
  - destruct (userRole req) as [[|] |]; cbn;
      rewrite !run_bind; cbn; rewrite run_awaited_sync; reflexivity.
Qed.

Lemma run_post_records_handler (req : Request) (w : World E) :
  run (post_records_handler req) w =
    match userRole req with
    | Some sub_admin =>
        let timeDiff := clock_value w - lastSubActionTime (cache w) in
        if timeDiff <? COOLDOWN then
          (fail 429 (TooFrequent (Math_ceil_div (COOLDOWN - timeDiff) 60000)),
           after_clock w)
        else run (insert_record req) (after_clock w)
    | _ => run (insert_record req) w
    end.
Proof.
  unfold post_records_handler.
  destruct (userRole req) as [[|] |]; try reflexivity.
  rewrite run_bind. cbn.
  now destruct (clock_value w - lastSubActionTime (cache w) <? COOLDOWN).
Qed.

Lemma run_finish_update (data : option (list jsval)) (error : option PgError)
    (w : World E) :
  run (finish_update data error) w =
    match error with
    | Some e => (fail 500 (Thrown (message e)), w)
    | None =>
        if no_rows data then (fail 404 RecordNotFound, w)
        else (json (SuccessRecord
                      (first_row (match data with Some d => d | None => [] end))),
              resynced w)
    end.
Proof.
  unfold finish_update. destruct error as [e |]; [reflexivity |].
  destruct (no_rows data); [reflexivity |].
  rewrite run_bind, run_awaited_sync. reflexivity.
Qed.

Lemma run_put_record_handler (req : Request) (w : World E) :
  nullish (body req) = false ->
  run (put_record_handler req) w =
    let id := params_id req in
    let updates := js_delete "id" (body req) in
    let q1 := UpdateRecord updates (JStr id) in
    let q2 := UpdateRecord updates (parseInt id) in
    let w1 := after_query q1 w in
    if (no_rows (rows_data (answer q1 w)) && test_decimal id)%bool then
      run (finish_update (rows_data (answer q2 w1)) (rows_error (answer q2 w1)))
          (after_query q2 w1)
    else
      run (finish_update (rows_data (answer q1 w)) (rows_error (answer q1 w))) w1.
Proof.
  intros B. unfold put_record_handler. rewrite B, run_bind. cbn.
  destruct (no_rows _ && test_decimal _)%bool; reflexivity.
Qed.

Lemma run_delete_record_handler (req : Request) (w : World E) :
  run (delete_record_handler req) w =
    let q := DeleteRecord (JStr (params_id req)) in
    match write_error (answer q w) with
    | Some error => (fail 500 (Thrown (message error)), after_query q w)
    | None => (json Success, resynced (after_query q w))
    end.
Proof.
  unfold delete_record_handler. rewrite run_bind. cbn.
  destruct (write_error _) as [error |]; [reflexivity |].
  rewrite run_bind, run_awaited_sync. reflexivity.
Qed.

Lemma run_get_records_handler (req : Request) (w : World E) :
  run (get_records_handler req) w =
    let w' := snd (run (sync false) w) in
    (json (RecordsBody (records (cache w'))), w').
Proof.
  unfold get_records_handler. rewrite run_bind, run_await_call. reflexivity.
Qed.

(** [Math.ceil]: the least whole number of [d]-sized units that covers
    [x]. *)
Lemma Math_ceil_div_spec (x d : Z) :
  0 < d ->
  d * (Math_ceil_div x d - 1) < x <= d * Math_ceil_div x d.
Proof.
  intros Hd. unfold Math_ceil_div.
  pose proof (Z.div_mod (- x) d ltac:(lia)) as Q.
  pose proof (Z.mod_pos_bound (- x) d Hd) as B.
  nia.
Qed.

Lemma lookup_after_delete (key : string) (fields : list (string * jsval)) :
  lookup_field key (filter (fun kv => negb (String.eqb (fst kv) key)) fields)
  = JUndefined.
Proof.
  induction fields as [| [k v] rest IH]; [reflexivity |].
  cbn. destruct (String.eqb k key) eqn:Q; cbn; [exact IH |].
  now rewrite Q.
Qed.

Lemma lookup_other_after_delete (key other : string)
    (fields : list (string * jsval)) :
  other <> key ->
  lookup_field other (filter (fun kv => negb (String.eqb (fst kv) key)) fields)
  = lookup_field other fields.
Proof.
  intros N. induction fields as [| [k v] rest IH]; [reflexivity |].
  cbn. destruct (String.eqb k key) eqn:Q; cbn.
  - apply String.eqb_eq in Q. subst k.
    destruct (String.eqb key other) eqn:Q2; [| exact IH].
    apply String.eqb_eq in Q2. congruence.
  - now rewrite IH.
Qed.

End HandlerFacts.

(* ================================================================== *)
(** ** The number that [parseInt] makes of a string of digits *)
(* ================================================================== *)

(** Below 2^53 every natural number is a double. *)
Lemma nearest_double_exact (n : Z) :
  n < 2 ^ 53 -> nearest_double n = Some n.
Proof.
  intros H. unfold nearest_double.
  change (2 ^ 53) with 9007199254740992 in H.
  apply Z.ltb_lt in H. now rewrite H.
Qed.

(** From 2^53 on the result is a 53-bit significand times the power of two
    that [n] calls for, at most half a unit of that power away from [n],
    the significand being even when [n] lies exactly halfway. *)
Lemma nearest_double_rounds (n d : Z) :
  2 ^ 53 <= n ->
  nearest_double n = Some d ->
  let unit := 2 ^ (Z.log2 n - 52) in
  exists m,
    d = m * unit
    /\ 2 ^ 52 <= m <= 2 ^ 53
    /\ 2 * Z.abs (d - n) <= unit
    /\ (2 * Z.abs (d - n) = unit -> Z.even m = true).
Proof.
  intros G. unfold nearest_double.
  change (2 ^ 53) with 9007199254740992 in G.
  assert (L : (n <? 9007199254740992) = false) by (apply Z.ltb_ge; exact G).
  rewrite L. cbv zeta.
  assert (Lg : 53 <= Z.log2 n).
  { apply Z.log2_le_pow2; [lia |]. exact G. }
  set (e := Z.log2 n - 52).
  assert (E1 : 1 <= e) by (unfold e; lia).
  pose proof (Z.log2_spec n ltac:(lia)) as [Lo Hi].
  replace (Z.log2 n) with (52 + e) in Lo by (unfold e; lia).
  replace (Z.succ (Z.log2 n)) with (53 + e) in Hi by (unfold e; lia).
  rewrite Z.pow_add_r in Lo, Hi by lia.
  rewrite Z.shiftr_div_pow2 by lia.
  rewrite !Z.shiftl_mul_pow2 by lia.
  assert (P : 0 < 2 ^ e) by (apply Z.pow_pos_nonneg; lia).
  assert (Hh : 2 ^ e = 2 * 2 ^ (e - 1)).
  { replace e with (Z.succ (e - 1)) at 1 by lia. apply Z.pow_succ_r. lia. }
  pose proof (Z.div_mod n (2 ^ e) ltac:(lia)) as DM.
  pose proof (Z.mod_pos_bound n (2 ^ e) P) as MB.
  set (q := n / 2 ^ e) in *. set (r := n mod 2 ^ e) in *.
  set (p := 2 ^ e) in *. set (h := 2 ^ (e - 1)) in *.
  assert (Q52 : 2 ^ 52 <= q < 2 ^ 53).
  { change (2 ^ 52) with 4503599627370496 in *.
    change (2 ^ 53) with 9007199254740992 in *. nia. }
  replace (n - q * p) with r by lia.
  rewrite Z.mul_1_l.
  destruct ((h <? r) || ((r =? h) && Z.odd q))%bool eqn:Up.
  - destruct (1024 <=? _); [discriminate |].
    intros D. injection D as <-. exists (q + 1).
    assert (R : h <= r).
    { apply orb_true_iff in Up. destruct Up as [U | U].
      - apply Z.ltb_lt in U. lia.
      - apply andb_true_iff in U. destruct U as [U _]. apply Z.eqb_eq in U. lia. }
    split; [reflexivity |]. split; [lia |]. split.
    + rewrite Z.abs_eq by nia. nia.
    + intros T. rewrite Z.abs_eq in T by nia.
      assert (r = h) by nia.
      apply orb_true_iff in Up. destruct Up as [U | U].
      * apply Z.ltb_lt in U. lia.
      * apply andb_true_iff in U. destruct U as [_ U].
        rewrite Z.even_add. rewrite <- Z.negb_odd, U. reflexivity.
  - destruct (1024 <=? _); [discriminate |].
    intros D. injection D as <-. exists q.
    apply orb_false_iff in Up. destruct Up as [U1 U2].
    apply Z.ltb_ge in U1.
    split; [reflexivity |]. split; [lia |]. split.
    + rewrite Z.abs_neq by nia. nia.
    + intros T. rewrite Z.abs_neq in T by nia.
      assert (R : r = h) by nia.
      apply andb_false_iff in U2. destruct U2 as [U | U].
      * apply Z.eqb_neq in U. contradiction.
      * rewrite <- Z.negb_odd, U. reflexivity.
Qed.

(** What [parseInt] gives for a string of digits: its decimal value when
    that is below 2^53; otherwise [Infinity] or a number within half a
    unit in the last place of the decimal value. *)
Lemma parseInt_value (s : string) :
  (decimal_value s < 2 ^ 53 -> parseInt s = JNum (decimal_value s))
  /\ (2 ^ 53 <= decimal_value s ->
      parseInt s = JInfinity
      \/ exists d, parseInt s = JNum d
                   /\ 2 * Z.abs (d - decimal_value s)
                      <= 2 ^ (Z.log2 (decimal_value s) - 52)).
Proof.
  unfold parseInt. split.
  - intros H. now rewrite nearest_double_exact.
  - intros H. destruct (nearest_double (decimal_value s)) as [d |] eqn:N.
    + right. exists d. split; [reflexivity |].
      destruct (nearest_double_rounds _ _ H N) as (m & _ & _ & C & _).
      exact C.
    + now left.
Qed.

(* ================================================================== *)
(** ** The cache: lazy and forced resynchronisation *)
(* ================================================================== *)

Section CacheClaims.

Context {E : Type} {Env : Environment E}.

(** C5.  With records in the cache, [sync(false)] returns at once: no
    query is issued and no field of the cache changes (the whole world is
    as before), and GET /api/records answers with the cached records
    without a store read. *)
Theorem lazy_sync_skips (req : Request) (w : World E) :
  records (cache w) <> [] ->
  run (sync false) w = (tt, w)
  /\ run (route_get_records req) w = (json (RecordsBody (records (cache w))), w).
Proof.
  intros H. split; [now apply run_sync_skip |].
  unfold route_get_records. rewrite run_get_records_handler.
  now rewrite run_sync_skip.
Qed.

(** C9.  Only a non-empty [records] array counts as a populated cache.
    With [records] empty, [sync(false)] issues the three reads again, and
    so does GET /api/records.  A resync whose records read came back with
    [data] null (a failed read) or with no rows leaves [records] empty, so
    the next lazy resync reloads once more. *)
Theorem empty_cache_reloads (req : Request) (forceRefresh : bool) (w : World E) :
  (records (cache w) = [] ->
     run (sync false) w = (tt, resynced w)
     /\ issued (snd (run (sync false) w)) = issued w ++ sync_reads
     /\ issued (snd (run (route_get_records req) w)) = issued w ++ sync_reads)
  /\ (forceRefresh = true \/ records (cache w) = [] ->
      rows_data (answer SelectRecords w) = None
      \/ rows_data (answer SelectRecords w) = Some [] ->
      let w' := snd (run (sync forceRefresh) w) in
      records (cache w') = []
      /\ issued (snd (run (sync false) w')) = issued w' ++ sync_reads).
Proof.
  split.
  - intros H.
    assert (R : run (sync false) w = (tt, resynced w))
      by (apply run_sync_reload; now right).
    repeat split.
    + exact R.
    + rewrite R. apply issued_resynced.
    + unfold route_get_records. rewrite run_get_records_handler, R.
      apply issued_resynced.
  - intros H D. cbv zeta. rewrite (run_sync_reload _ _ H). cbn [snd].
    assert (Q : records (cache (resynced w)) = []).
    { unfold resynced. rewrite with_cache_loaded_cache. cbn.
      unfold data_or_empty. destruct D as [-> | ->]; reflexivity. }
    split; [exact Q |].
    rewrite run_sync_reload by now right.
    apply issued_resynced.
Qed.

End CacheClaims.

(* ================================================================== *)
(** ** Writing a record: cooldown, conflict, timestamp *)
(* ================================================================== *)

Section WriteClaims.

Context {E : Type} {Env : Environment E}.
Variable pw : option string.

Lemma insert_record_issues_insert (req : Request) (w : World E) :
  status (fst (run (insert_record req) w)) <> 429
  /\ exists rest,
      issued (snd (run (insert_record req) w))
      = issued w ++ InsertRecord (body req) :: rest.
Proof.
  rewrite run_insert_record. cbv zeta.
  destruct (write_error _) as [error |].
  - split.
    + cbn. destruct (String.eqb (code error) "23505"); cbn; lia.
    + exists []. reflexivity.
  - split; [cbn; lia |]. exists sync_reads. cbn [snd].
    rewrite issued_resynced.
    destruct (userRole req) as [[|] |]; cbn; now rewrite <- app_assoc.
Qed.

(** C2.  POST /api/records for a token that resolves to 'sub_admin': the
    cooldown is ten minutes, counted from [lastSubActionTime].  While
    [now - lastSubActionTime] is below it the answer is 429 with the
    minutes left, [ceil((COOLDOWN - timeDiff) / 60000)], and no query is
    issued and the cache is not changed; from the cooldown on, the
    handler goes on to the insert.  For the super-admin token the insert
    is issued whatever the clock shows, and the answer is never 429. *)
Theorem sub_admin_cooldown (req : Request) (w : World E) :
  let token := x_admin_token req in
  let timeDiff := clock_value w - lastSubActionTime (cache w) in
  let result := run (route_post_records pw req) w in
  COOLDOWN = 600000
  /\ (token <> Some (ADMIN_PASSWORD pw) ->
      sub_secret_matches (cache w) token ->
      (timeDiff < COOLDOWN ->
         let remaining := Math_ceil_div (COOLDOWN - timeDiff) 60000 in
         result = (fail 429 (TooFrequent remaining), after_clock w)
         /\ 60000 * (remaining - 1) < COOLDOWN - timeDiff <= 60000 * remaining
         /\ issued (snd result) = issued w
         /\ cache (snd result) = cache w)
      /\ (COOLDOWN <= timeDiff ->
         result = run (insert_record (with_userRole sub_admin req)) (after_clock w)
         /\ status (fst result) <> 429
         /\ exists rest, issued (snd result) = issued w ++ InsertRecord (body req) :: rest))
  /\ (token = Some (ADMIN_PASSWORD pw) ->
      result = run (insert_record (with_userRole admin req)) w
      /\ status (fst result) <> 429
      /\ exists rest, issued (snd result) = issued w ++ InsertRecord (body req) :: rest).
Proof.
  cbv zeta. split; [reflexivity |]. split.
  - intros N S. unfold route_post_records.
    rewrite (auth_sub_admin _ _ _ _ N S), run_post_records_handler.
    cbn [userRole with_userRole]. cbv zeta. split.
    + intros L. apply Z.ltb_lt in L. rewrite L.
      repeat split; try reflexivity;
        apply Math_ceil_div_spec; lia.
    + intros G. apply Z.ltb_ge in G. rewrite G.
      split; [reflexivity |].
      apply (insert_record_issues_insert (with_userRole sub_admin req) (after_clock w)).
  - intros T. unfold route_post_records.
    rewrite (auth_admin _ _ _ _ T), run_post_records_handler.
    cbn [userRole with_userRole].
    split; [reflexivity |].
    apply (insert_record_issues_insert (with_userRole admin req) w).
Qed.

(** C3.  The insert of POST /api/records.  A reply with error code
    '23505' is answered 409, any other error 500 with the error's message;
    in both cases nothing follows the insert: no resync query is issued
    and the cache, [lastSubActionTime] included, is as before.  The
    timestamp is written only once the insert has come back without an
    error: then a sub-admin's write stores the clock value read after the
    insert, and an admin's write leaves the timestamp alone.  Whenever the
    handler answers anything but 200, the cache is unchanged. *)
Theorem insert_failure_keeps_state (req : Request) (w : World E) :
  let q := InsertRecord (body req) in
  let reply := answer q w in
  let result := run (insert_record req) w in
  (forall error, write_error reply = Some error ->
     (code error = "23505" -> fst result = fail 409 Duplicate)
     /\ (code error <> "23505" -> fst result = fail 500 (Thrown (message error)))
     /\ issued (snd result) = issued w ++ [q]
     /\ cache (snd result) = cache w)
  /\ (write_error reply = None ->
      fst result = json Success
      /\ issued (snd result) = issued w ++ q :: sync_reads
      /\ (userRole req = Some sub_admin ->
          lastSubActionTime (cache (snd result)) = clock_value (after_query q w))
      /\ (userRole req <> Some sub_admin ->
          lastSubActionTime (cache (snd result)) = lastSubActionTime (cache w)))
  /\ (status (fst (run (post_records_handler req) w)) <> 200 ->
      cache (snd (run (post_records_handler req) w)) = cache w).
Proof.
  cbv zeta. repeat split.
  - intros C. rewrite run_insert_record. cbv zeta. rewrite H.
    apply String.eqb_eq in C. now rewrite C.
  - intros C. rewrite run_insert_record. cbv zeta. rewrite H.
    apply String.eqb_neq in C. now rewrite C.
  - rewrite run_insert_record. cbv zeta. now rewrite H.
  - rewrite run_insert_record. cbv zeta. now rewrite H.
  - rewrite run_insert_record. cbv zeta. now rewrite H.
  - rewrite run_insert_record. cbv zeta. rewrite H. cbn [snd].
    rewrite issued_resynced.
    destruct (userRole req) as [[|] |]; cbn; now rewrite <- app_assoc.
  - intros R. rewrite run_insert_record. cbv zeta. rewrite H, R. reflexivity.
  - intros R. rewrite run_insert_record. cbv zeta. rewrite H. cbn [snd].
    rewrite lastSubActionTime_resynced.
    destruct (userRole req) as [[|] |]; try reflexivity. congruence.
  - rewrite run_post_records_handler.
    assert (I : forall req' (w' : World E),
               status (fst (run (insert_record req') w')) <> 200 ->
               cache (snd (run (insert_record req') w')) = cache w').
    { intros req' w'. rewrite run_insert_record. cbv zeta.
      destruct (write_error _); cbn; [reflexivity | lia]. }
    destruct (userRole req) as [[|] |]; try apply I.
    cbv zeta. destruct (_ <? COOLDOWN); [reflexivity |].
    intros R. now rewrite I.
Qed.

End WriteClaims.

(* ================================================================== *)
(** ** Updating and deleting a record *)
(* ================================================================== *)

Lemma test_decimal_spec (s : string) :
  test_decimal s = true
  <-> s <> "" /\ Forall (fun c => (48 <= nat_of_ascii c <= 57)%nat) (chars s).
Proof.
  assert (A : forall t, all_digits t = true
                        <-> Forall (fun c => (48 <= nat_of_ascii c <= 57)%nat) (chars t)).
  { induction t as [| c rest IH]; cbn.
    - split; [constructor | reflexivity].
    - rewrite andb_true_iff, IH. unfold is_digit.
      rewrite andb_true_iff, !Nat.leb_le. split.
      + intros [D F]. now constructor.
      + intros F. inversion F; subst. auto. }
  destruct s as [| c rest].
  - cbn. split; [discriminate | intros [N _]; congruence].
  - unfold test_decimal. rewrite A. split; [| tauto].
    intros F. split; [discriminate | exact F].
Qed.

Section UpdateClaims.

Context {E : Type} {Env : Environment E}.

(** C4.  PUT /api/records/:id, for a body that has properties (any
    value but null and undefined).  The [id] property is removed from the
    body before it is used as the update (the other properties stay); the
    first update is issued with the route parameter as a string.  When
    that attempt comes back with zero rows and the parameter is all
    decimal digits, one retry is issued with the parameter parsed as a
    number, and nothing is retried after it; zero rows again give 404, a
    row gives 200 with that row, after a forced resync.  Zero rows for a
    parameter that is not all digits give 404 without a retry, and a row
    on the first attempt gives 200 with that row, after a forced resync.
    The number of the retry is what [parseInt] makes of the parameter: its
    decimal value below 2^53, and beyond that the nearest double (for
    '9007199254740993' the number 9007199254740992) or [Infinity]. *)
Theorem update_by_id (req : Request) (w : World E) :
  let id := params_id req in
  let updates := js_delete "id" (body req) in
  let q1 := UpdateRecord updates (JStr id) in
  let first := answer q1 w in
  let w1 := after_query q1 w in
  let q2 := UpdateRecord updates (parseInt id) in
  let retry := answer q2 w1 in
  let w2 := after_query q2 w1 in
  let result := run (put_record_handler req) w in
  nullish (body req) = false ->
  (js_get "id" updates = JUndefined
   /\ forall key, key <> "id" -> js_get key updates = js_get key (body req))
  /\ (exists rest,
        issued (snd result) = issued w ++ q1 :: rest
        /\ (rest = [] \/ rest = sync_reads \/ rest = [q2] \/ rest = q2 :: sync_reads))
  /\ (rows_data first = Some [] -> rows_error first = None ->
      test_decimal id = true ->
      (rows_data retry = Some [] -> rows_error retry = None ->
         result = (fail 404 RecordNotFound, w2)
         /\ issued w2 = issued w ++ [q1; q2])
      /\ (forall r others, rows_data retry = Some (r :: others) ->
          rows_error retry = None ->
          result = (json (SuccessRecord r), resynced w2)
          /\ issued (resynced w2) = issued w ++ [q1; q2] ++ sync_reads))
  /\ (rows_data first = Some [] -> rows_error first = None ->
      test_decimal id = false ->
      result = (fail 404 RecordNotFound, w1)
      /\ issued w1 = issued w ++ [q1])
  /\ (forall r others, rows_data first = Some (r :: others) ->
      rows_error first = None ->
      result = (json (SuccessRecord r), resynced w1)
      /\ issued (resynced w1) = issued w ++ [q1] ++ sync_reads)
  /\ (decimal_value id < 2 ^ 53 -> parseInt id = JNum (decimal_value id))
  /\ (2 ^ 53 <= decimal_value id ->
      parseInt id = JInfinity
      \/ exists d, parseInt id = JNum d
                   /\ 2 * Z.abs (d - decimal_value id)
                      <= 2 ^ (Z.log2 (decimal_value id) - 52)).
Proof.
  cbv zeta. intros B.
  pose proof (run_put_record_handler req w B) as R. cbv zeta in R.
  split; [| split; [| split; [| split; [| split]]]];
    [| | | | | apply parseInt_value].
  - split.
    + destruct (body req); try reflexivity. cbn. apply lookup_after_delete.
    + intros key N. destruct (body req); try reflexivity. cbn.
      now apply lookup_other_after_delete.
  - rewrite R.
    destruct (no_rows _ && test_decimal _)%bool; rewrite run_finish_update.
    + destruct (rows_error _); [| destruct (no_rows _)]; cbn [snd].
      * eexists. split; [| right; right; left; reflexivity].
        cbn. now rewrite <- app_assoc.
      * eexists. split; [| right; right; left; reflexivity].
        cbn. now rewrite <- app_assoc.
      * eexists. split; [| right; right; right; reflexivity].
        rewrite issued_resynced. cbn. now rewrite <- !app_assoc.
    + destruct (rows_error _); [| destruct (no_rows _)]; cbn [snd].
      * exists []. split; [reflexivity | now left].
      * exists []. split; [reflexivity | now left].
      * exists sync_reads. split; [| right; now left].
        rewrite issued_resynced. cbn. now rewrite <- !app_assoc.
  - intros D1 E1 T. split.
    + intros D2 E2. rewrite R.
      rewrite D1, T. cbn [no_rows andb]. rewrite run_finish_update, D2, E2.
      split; [reflexivity |]. cbn. now rewrite <- app_assoc.
    + intros r others D2 E2. rewrite R.
      rewrite D1, T. cbn [no_rows andb]. rewrite run_finish_update, D2, E2.
      split; [reflexivity |].
      rewrite issued_resynced. cbn. now rewrite <- !app_assoc.
  - intros D1 E1 T. rewrite R.
    rewrite D1, T. cbn [no_rows andb]. rewrite run_finish_update, E1.
    split; reflexivity.
  - intros r others D1 E1. rewrite R.
    rewrite D1. cbn [no_rows andb]. rewrite run_finish_update, E1.
    split; [reflexivity |].
    rewrite issued_resynced. cbn. now rewrite <- !app_assoc.
Qed.

(** C10.  In PUT /api/records/:id (for a body that has properties) the
    retry, with the number that [parseInt] makes of the parameter, is
    taken whenever the first attempt has no rows, which includes a first
    attempt that came back with [data] null and an error.  For an
    all-digits parameter the outcome is then that of the retry alone: a row from the retry gives
    200 although the first attempt failed, an error from the retry gives
    500 with the retry's message, and an empty retry gives 404; the first
    attempt's error is not reported. *)
Theorem retry_replaces_first_error (req : Request) (w : World E) :
  let id := params_id req in
  let updates := js_delete "id" (body req) in
  let q1 := UpdateRecord updates (JStr id) in
  let first := answer q1 w in
  let w1 := after_query q1 w in
  let q2 := UpdateRecord updates (parseInt id) in
  let retry := answer q2 w1 in
  let w2 := after_query q2 w1 in
  let result := run (put_record_handler req) w in
  nullish (body req) = false ->
  test_decimal id = true ->
  rows_data first = None \/ rows_data first = Some [] ->
  issued w2 = issued w ++ [q1; q2]
  /\ result = run (finish_update (rows_data retry) (rows_error retry)) w2
  /\ (forall r others, rows_data retry = Some (r :: others) ->
      rows_error retry = None ->
      result = (json (SuccessRecord r), resynced w2))
  /\ (forall e2, rows_error retry = Some e2 ->
      result = (fail 500 (Thrown (message e2)), w2))
  /\ (rows_data retry = None \/ rows_data retry = Some [] ->
      rows_error retry = None ->
      result = (fail 404 RecordNotFound, w2)).
Proof.
  cbv zeta. intros B T D.
  assert (N : no_rows (rows_data (answer
               (UpdateRecord (js_delete "id" (body req)) (JStr (params_id req))) w))
              = true) by (destruct D as [-> | ->]; reflexivity).
  assert (R : run (put_record_handler req) w =
              run (finish_update
                     (rows_data (answer (UpdateRecord (js_delete "id" (body req))
                        (parseInt (params_id req)))
                        (after_query (UpdateRecord (js_delete "id" (body req))
                           (JStr (params_id req))) w)))
                     (rows_error (answer (UpdateRecord (js_delete "id" (body req))
                        (parseInt (params_id req)))
                        (after_query (UpdateRecord (js_delete "id" (body req))
                           (JStr (params_id req))) w))))
                  (after_query (UpdateRecord (js_delete "id" (body req))
                        (parseInt (params_id req)))
                     (after_query (UpdateRecord (js_delete "id" (body req))
                           (JStr (params_id req))) w))).
  { rewrite (run_put_record_handler req w B). cbv zeta. now rewrite N, T. }
  split; [cbn; now rewrite <- app_assoc |].
  split; [exact R |].
  rewrite R, run_finish_update. repeat split.
  - intros r others D2 E2. now rewrite D2, E2.
  - intros e2 E2. now rewrite E2.
  - intros D2 E2. rewrite E2. now destruct D2 as [-> | ->].
Qed.

(** C6.  DELETE /api/records/:id.  When the delete comes back without an
    error the answer is 200 [{ success: true }], after a forced resync;
    the reply carries nothing about matched rows and the handler has no
    404: its status is 200, or 500 when the delete reported an error.  A
    delete of an identifier that matches no row is therefore answered
    like any other. *)
Theorem delete_always_succeeds (req : Request) (w : World E) :
  let q := DeleteRecord (JStr (params_id req)) in
  let result := run (delete_record_handler req) w in
  (write_error (answer q w) = None ->
     result = (json Success, resynced (after_query q w)))
  /\ (forall error, write_error (answer q w) = Some error ->
      result = (fail 500 (Thrown (message error)), after_query q w))
  /\ status (fst result) <> 404.
Proof.
  cbv zeta. rewrite run_delete_record_handler. cbv zeta. repeat split.
  - intros H. now rewrite H.
  - intros error H. now rewrite H.
  - destruct (write_error _); cbn; lia.
Qed.

End UpdateClaims.

(* ================================================================== *)
(** ** The event loop: what other requests can see of a resync *)
(* ================================================================== *)

Section TidyTasks.

Lemma tidy_bind {A B : Type} (p : prog A) (f : A -> prog B) :
  tidy p -> (forall a, tidy (f a)) -> tidy (bind p f).
Proof.
  intros T F. induction T as
    [a | k _ IH | t k _ IH | k _ IH | q k _ IH | k _ IH | k _ IH]; cbn.
  - apply F.
  - now apply tidy_ReadCache.
  - now apply tidy_WriteTime.
  - now apply tidy_DateNow.
  - now apply tidy_Await.
  - now apply tidy_AwaitReturn.
  - exact (tidy_reload (fun r1 r2 r3 => bind (k r1 r2 r3) f) IH).
Qed.

Lemma tidy_sync (forceRefresh : bool) : tidy (sync forceRefresh).
Proof.
  unfold sync, read_cache. cbn. apply tidy_ReadCache. intros c.
  destruct (_ && _)%bool.
  - apply tidy_Ret.
  - exact (tidy_reload (fun _ _ _ => Ret tt) (fun _ _ _ => tidy_Ret tt)).
Qed.

Lemma tidy_await_call {A : Type} (p : prog A) : tidy p -> tidy (await_call p).
Proof.
  intros T. unfold await_call. apply tidy_bind; [exact T |].
  intros a. apply tidy_AwaitReturn, tidy_Ret.
Qed.

Lemma tidy_await (q : query) : tidy (await q).
Proof. apply tidy_Await. intros r. apply tidy_Ret. Qed.

Lemma tidy_resync_then {A : Type} (p : prog A) :
  tidy p -> tidy (await_call (sync true) ;; p).
Proof.
  intros T. apply tidy_bind; [apply tidy_await_call, tidy_sync | now intros _].
Qed.

Variable pw : option string.

Lemma tidy_authMiddleware (req : Request) (next : Request -> prog Response) :
  (forall r, tidy (next r)) -> tidy (authMiddleware pw req next).
Proof.
  intros N. unfold authMiddleware.
  destruct (token_strict_equals _ _); [apply N |].
  apply tidy_bind; [apply tidy_ReadCache; intros c; apply tidy_Ret |].
  intros c. destruct (_ && _)%bool; [apply N | apply tidy_Ret].
Qed.

Lemma tidy_requireSuperAdmin (req : Request) (next : Request -> prog Response) :
  (forall r, tidy (next r)) -> tidy (requireSuperAdmin req next).
Proof.
  intros N. unfold requireSuperAdmin.
  destruct (userRole req) as [[|] |]; [apply N | apply tidy_Ret ..].
Qed.

Lemma tidy_write_then_resync (q : query) (error_of : reply_of q -> option PgError) :
  tidy (r <- await q ;;
        match error_of r with
        | Some error => catch500 error
        | None => await_call (sync true) ;; Ret (json Success)
        end).
Proof.
  apply tidy_bind; [apply tidy_await |]. intros r.
  destruct (error_of r); [apply tidy_Ret | apply tidy_resync_then, tidy_Ret].
Qed.

Lemma tidy_insert_record (req : Request) : tidy (insert_record req).
Proof.
  unfold insert_record. apply tidy_bind; [apply tidy_await |]. intros r.
  destruct (write_error r) as [error |].
  - destruct (String.eqb _ _); apply tidy_Ret.
  - apply tidy_bind; [| intros _; apply tidy_resync_then, tidy_Ret].
    destruct (userRole req) as [[|] |]; try apply tidy_Ret.
    apply tidy_bind; [apply tidy_DateNow; intros t; apply tidy_Ret |].
    intros t. apply tidy_WriteTime, tidy_Ret.
Qed.

Lemma tidy_finish_update data error : tidy (finish_update data error).
Proof.
  unfold finish_update. destruct error; [apply tidy_Ret |].
  destruct (no_rows data); [apply tidy_Ret | apply tidy_resync_then, tidy_Ret].
Qed.

Lemma tidy_read_after_sync {A : Type} (k : LocalCache -> prog A) :
  (forall c, tidy (k c)) ->
  tidy (await_call (sync false) ;; c <- read_cache ;; k c).
Proof.
  intros K. apply tidy_bind; [apply tidy_await_call, tidy_sync |].
  intros _. apply tidy_bind; [| exact K].
  apply tidy_ReadCache. intros c. apply tidy_Ret.
Qed.

Lemma tidy_serve (rt : Route) (req : Request) : tidy (serve pw rt req).
Proof.
  destruct rt; cbn [serve].
  - apply tidy_authMiddleware. intros r. unfold login_handler.
    destruct (userRole r); apply tidy_Ret.
  - apply tidy_authMiddleware. intros r. apply tidy_requireSuperAdmin.
    intros r'. unfold sub_password_handler.
    destruct (nullish _); [apply tidy_Ret |].
    apply (tidy_write_then_resync (UpsertSetting _ _) write_error).
  - apply tidy_read_after_sync. intros c. apply tidy_Ret.
  - apply tidy_authMiddleware. intros r. unfold post_records_handler.
    destruct (userRole r) as [[|] |]; try apply tidy_insert_record.
    apply tidy_bind; [apply tidy_DateNow; intros t; apply tidy_Ret |].
    intros t. apply tidy_bind; [apply tidy_ReadCache; intros c; apply tidy_Ret |].
    intros c. destruct (_ <? _); [apply tidy_Ret | apply tidy_insert_record].
  - apply tidy_read_after_sync. intros c. apply tidy_Ret.
  - apply tidy_authMiddleware. intros r. apply tidy_requireSuperAdmin.
    intros r'. apply (tidy_write_then_resync (UpsertSetting _ _) write_error).
  - apply tidy_authMiddleware. intros r. apply tidy_requireSuperAdmin.
    intros r'. apply (tidy_write_then_resync (DeleteRecord _) write_error).
  - apply tidy_authMiddleware. intros r. apply tidy_requireSuperAdmin.
    intros r'. unfold put_record_handler.
    destruct (nullish _); [apply tidy_Ret |].
    apply tidy_bind; [apply tidy_await |]. intros first.
    destruct (_ && _)%bool; [| apply tidy_finish_update].
    apply tidy_bind; [apply tidy_await |]. intros retry.
    apply tidy_finish_update.
Qed.

Lemma tidy_request_task (rt : Route) (req : Request) :
  tidy (request_task pw rt req).
Proof.
  unfold request_task. apply tidy_bind; [apply tidy_serve |].
  intros a. apply tidy_Ret.
Qed.

Lemma tidy_startup_task : tidy startup_task.
Proof.
  unfold startup_task. apply tidy_bind; [apply tidy_sync |].
  intros a. apply tidy_Ret.
Qed.

End TidyTasks.

Section LoopFacts.

Context {E : Type} {Env : Environment E}.
Variable pw : option string.

(** A turn of a tidy task leaves the snapshot alone, and what is left of
    the task is tidy. *)
Lemma turn_tidy {A : Type} (p : prog A) (c : LocalCache) (e : E) :
  tidy p ->
  tidy (fst (turn p c e)) /\ snapshot (fst (snd (turn p c e))) = snapshot c.
Proof.
  intros T. revert c e. induction T as
    [a | k _ IH | t k _ IH | k _ IH | q k K _ | k K _ | k K _]; intros c e; cbn.
  - split; [apply tidy_Ret | reflexivity].
  - apply IH.
  - destruct (IH (set_lastSubActionTime t c) e) as [T' S]. split; [exact T' |].
    rewrite S. reflexivity.
  - apply IH.
  - split; [now apply tidy_Await | reflexivity].
  - split; [now apply tidy_AwaitReturn | reflexivity].
  - split; [now apply tidy_reload | reflexivity].
Qed.

(** The turn that receives the replies of a resync stores all three. *)
Lemma turn_reload {A : Type} (r1 : RowsReply) (r2 r3 : SingleReply)
    (k : prog A) (c : LocalCache) (e : E) :
  tidy k ->
  let p := WriteRecords (data_or_empty r1)
             (WriteAliases (value_or (JObj []) r2)
                (WriteSubAdminPwd (value_or JNull r3) k)) in
  tidy (fst (turn p c e))
  /\ snapshot (fst (snd (turn p c e)))
     = (data_or_empty r1, value_or (JObj []) r2, value_or JNull r3).
Proof.
  intros T. cbn.
  destruct (turn_tidy k
              (set_subAdminPwd (value_or JNull r3)
                 (set_aliases (value_or (JObj []) r2)
                    (set_records (data_or_empty r1) c))) e T) as [T' S].
  split; [exact T' |]. rewrite S. reflexivity.
Qed.

(** Resuming a tidy task: either its next turn is tidy as it stands, or
    the task was waiting for the reads of a resync and its next turn
    starts with the three writes. *)
Lemma resume_tidy {A : Type} (p p1 : prog A) (e e1 : E) (bs : list Batch) :
  tidy p ->
  resume p e = Some (p1, e1, bs) ->
  (bs = [] /\ tidy p1)
  \/ (exists r1 r2 r3 k,
        bs = [mkBatch SelectRecords (SelectSettingValue "mahjong_aliases")
                      (SelectSettingValue "sub_admin_password") r1 r2 r3]
        /\ p1 = WriteRecords (data_or_empty r1)
                  (WriteAliases (value_or (JObj []) r2)
                     (WriteSubAdminPwd (value_or JNull r3) k))
        /\ tidy k).
Proof.
  intros T R. destruct T as [a | k K | t k K | k K | q k K | k K | k K];
    cbn in R; try discriminate.
  - destruct (respond e q) as [r e']. injection R as <- <- <-. left. auto.
  - injection R as <- <- <-. left. auto.
  - destruct (respond e SelectRecords) as [r1 e'].
    destruct (respond e' (SelectSettingValue "mahjong_aliases")) as [r2 e''].
    destruct (respond e'' (SelectSettingValue "sub_admin_password")) as [r3 e'''].
    injection R as <- <- <-. right. exists r1, r2, r3, (k r1 r2 r3). auto.
Qed.

Lemma alone_unfold {A : Type} (fuel : nat) (p : prog A) (c : LocalCache) (e : E) :
  alone fuel p c e =
    match turn p c e with
    | (Ret a, state) => Some (a, state)
    | (parked, (c', e')) =>
        match fuel with
        | O => None
        | S fuel' =>
            match resume parked e' with
            | Some (p1, e1, _) => alone fuel' p1 c' e1
            | None => None
            end
        end
    end.
Proof. destruct fuel; reflexivity. Qed.

(** Served alone by the event loop, a task ends with the result, the cache
    and the environment that [run] computes for it. *)
Lemma alone_is_run {A : Type} (p : prog A) (w : World E) :
  exists fuel,
    alone fuel p (cache w) (env w)
    = Some (fst (run p w), (cache (snd (run p w)), env (snd (run p w)))).
Proof.
  revert w. induction p as
    [a | k IH | v k IH | v k IH | v k IH | t k IH | k IH | q k IH
     | q1 q2 q3 k IH | k IH]; intros w.
  - exists O. reflexivity.
  - destruct (IH (cache w) w) as [n Q]. exists n.
    rewrite alone_unfold in Q |- *. exact Q.
  - destruct (IH (with_cache (set_records v) w)) as [n Q]. exists n.
    rewrite alone_unfold in Q |- *. exact Q.
  - destruct (IH (with_cache (set_aliases v) w)) as [n Q]. exists n.
    rewrite alone_unfold in Q |- *. exact Q.
  - destruct (IH (with_cache (set_subAdminPwd v) w)) as [n Q]. exists n.
    rewrite alone_unfold in Q |- *. exact Q.
  - destruct (IH (with_cache (set_lastSubActionTime t) w)) as [n Q]. exists n.
    rewrite alone_unfold in Q |- *. exact Q.
  - destruct (IH (clock_value w) (after_clock w)) as [n Q]. exists n.
    rewrite alone_unfold in Q |- *. exact Q.
  - destruct (IH (answer q w) (after_query q w)) as [n Q]. exists (S n).
    cbn [alone turn resume run].
    unfold answer, after_query in Q |- *. cbn [cache env] in Q |- *.
    destruct (respond (env w) q) as [r e1]. exact Q.
  - destruct (IH (answer q1 w)
                 (answer q2 (after_query q1 w))
                 (answer q3 (after_query q2 (after_query q1 w)))
                 (after_query q3 (after_query q2 (after_query q1 w))))
      as [n Q].
    exists (S n). cbn [alone turn resume run].
    unfold answer, after_query in Q |- *. cbn [cache env] in Q |- *.
    destruct (respond (env w) q1) as [r1 e1].
    cbn [fst snd cache env issued] in Q |- *.
    destruct (respond e1 q2) as [r2 e2].
    cbn [fst snd cache env issued] in Q |- *.
    destruct (respond e2 q3) as [r3 e3]. exact Q.
  - destruct (IH w) as [n Q]. exists (S n). exact Q.
Qed.

Lemma Forall_replace_nth {A : Type} (P : A -> Prop) (i : nat) (x : A) (l : list A) :
  P x -> Forall P l -> Forall P (replace_nth i x l).
Proof.
  intros Px F. revert i. induction F as [| y rest Py F IH]; intros i.
  - destruct i; constructor.
  - destruct i; cbn; constructor; auto.
Qed.

Lemma whole_snapshot_kept old (l l' : Loop E) (bs : list Batch) :
  whole_snapshot old l ->
  snapshot (shared l') = snapshot (shared l) ->
  delivered l' = delivered l ++ bs ->
  whole_snapshot old l'.
Proof.
  intros [O | (b & I & S)] Q D; [left; congruence |].
  right. exists b. rewrite D, Q. split; [apply in_or_app; now left | exact S].
Qed.

Lemma loop_step_invariant old (l : Loop E) (ev : Event) :
  loop_invariant old l -> loop_invariant old (loop_step pw l ev).
Proof.
  intros [W F]. destruct ev as [rt req | i]; cbn [loop_step].
  - pose proof (turn_tidy _ (shared l) (outside l) (tidy_request_task pw rt req))
      as [T S].
    destruct (turn _ _ _) as [p [c e]]. cbn in T, S. split.
    + apply (whole_snapshot_kept old l _ []); cbn; auto using app_nil_r.
    + cbn. apply Forall_app. split; [exact F | now constructor].
  - destruct (nth_error (pool l) i) as [parked |] eqn:N; [| now split].
    assert (P : tidy parked).
    { apply nth_error_In in N. rewrite Forall_forall in F. now apply F. }
    destruct (resume parked (outside l)) as [[[p1 e1] bs] |] eqn:R; [| now split].
    destruct (resume_tidy _ _ _ _ _ P R)
      as [[-> T1] | (r1 & r2 & r3 & k & -> & -> & K)].
    + pose proof (turn_tidy p1 (shared l) e1 T1) as [T S].
      destruct (turn _ _ _) as [p [c e]]. cbn in T, S. split.
      * apply (whole_snapshot_kept old l _ []); cbn; auto.
      * cbn. now apply Forall_replace_nth.
    + pose proof (turn_reload r1 r2 r3 k (shared l) e1 K) as [T S].
      cbv zeta in T, S.
      destruct (turn _ _ _) as [p [c e]]. cbn [fst snd] in T, S. split.
      * right. cbn [shared delivered]. eexists. split.
        -- apply in_or_app. right. left. reflexivity.
        -- rewrite S. constructor.
      * cbn. now apply Forall_replace_nth.
Qed.

Lemma event_loop_invariant old (schedule : list Event) (l : Loop E) :
  loop_invariant old l -> loop_invariant old (event_loop pw l schedule).
Proof.
  unfold event_loop. revert l.
  induction schedule as [| ev rest IH]; intros l I; cbn; [exact I |].
  apply IH. now apply loop_step_invariant.
Qed.

Lemma booted_invariant (e : E) :
  loop_invariant (snapshot LocalCache_init) (booted e).
Proof.
  unfold booted.
  pose proof (turn_tidy _ LocalCache_init e tidy_startup_task) as [T S].
  destruct (turn _ _ _) as [p [c e']]. cbn in T, S. split.
  - left. exact S.
  - cbn. now constructor.
Qed.

(** C8.  A forced resync issues its three reads as one [Promise.all] and
    stops there with the cache untouched.  The turn that receives the
    three replies stores records, aliases and sub-admin password one
    after the other without an [await] in between, and ends the resync.
    Since other requests run only between turns, whatever the order in
    which requests arrive and are resumed, the cache they find holds
    either the snapshot from before or the complete snapshot built from
    the replies of one resync. *)
Theorem resync_is_atomic (c : LocalCache) (e : E) :
  (exists k,
      turn (sync true) c e
      = (AwaitAll3 SelectRecords (SelectSettingValue "mahjong_aliases")
                   (SelectSettingValue "sub_admin_password") k, (c, e))
      /\ forall r1 r2 r3 c' e',
          turn (k r1 r2 r3) c' e' = (Ret tt, (loaded r1 r2 r3 c', e')))
  /\ (forall schedule,
        whole_snapshot (snapshot LocalCache_init)
                       (event_loop pw (booted e) schedule)).
Proof.
  split.
  - exists (fun r1 r2 r3 =>
              WriteRecords (data_or_empty r1)
                (WriteAliases (value_or (JObj []) r2)
                   (WriteSubAdminPwd (value_or JNull r3) (Ret tt)))).
    split; [| reflexivity].
    unfold sync. cbn. now rewrite andb_false_r.
  - intros schedule. apply event_loop_invariant, booted_invariant.
Qed.

End LoopFacts.

(* ================================================================== *)
(** ** The theorems on concrete requests *)
(* ================================================================== *)

(** The default secret '888888' gives 'admin' even when the sub-admin
    password is the same string; 'abc123' gives 'sub_admin' when it is the
    cached password; a wrong token, and an empty token against an empty
    password, are answered 401. *)
Lemma role_resolution_witness :
  run (route_login None (request (Some "888888") "" JNull))
      (world (cache_with (JStr "888888") 0) (quiet []))
  = (json (SuccessRole admin), world (cache_with (JStr "888888") 0) (quiet []))
  /\ run (route_login None (request (Some "abc123") "" JNull))
         (world (cache_with (JStr "abc123") 0) (quiet []))
     = (json (SuccessRole sub_admin), world (cache_with (JStr "abc123") 0) (quiet []))
  /\ run (route_login None (request (Some "guess") "" JNull))
         (world (cache_with (JStr "abc123") 0) (quiet []))
     = (fail 401 BadPassword, world (cache_with (JStr "abc123") 0) (quiet []))
  /\ run (route_login None (request (Some "") "" JNull))
         (world (cache_with (JStr "") 0) (quiet []))
     = (fail 401 BadPassword, world (cache_with (JStr "") 0) (quiet [])).
Proof.
  split; [| split; [| split]].
  - destruct (role_resolution None (request (Some "888888") "" JNull) login_handler
                (world (cache_with (JStr "888888") 0) (quiet []))) as (A & _).
    apply A. reflexivity.
  - destruct (role_resolution None (request (Some "abc123") "" JNull) login_handler
                (world (cache_with (JStr "abc123") 0) (quiet []))) as (_ & B & _).
    apply B.
    + discriminate.
    + exists "abc123". split; [reflexivity | split; [discriminate | reflexivity]].
  - destruct (role_resolution None (request (Some "guess") "" JNull) login_handler
                (world (cache_with (JStr "abc123") 0) (quiet []))) as (_ & _ & C & _).
    apply C.
    + discriminate.
    + intros (s & Q & _ & T). cbn in Q, T. congruence.
  - destruct (role_resolution None (request (Some "") "" JNull) login_handler
                (world (cache_with (JStr "") 0) (quiet []))) as (_ & _ & _ & D).
    apply D.
    + right. right. reflexivity.
    + discriminate.
Defined.

(** A sub-admin token on the four super-admin routes: 403 each time, and a
    request whose role is 'sub_admin' does not pass [requireSuperAdmin]. *)
Lemma sub_admin_forbidden_witness :
  run (requireSuperAdmin (as_role sub_admin sub_admin_post) delete_record_handler)
      (world (cache_with (JStr "abc123") 0) (quiet []))
  = (fail 403 SuperAdminOnly, world (cache_with (JStr "abc123") 0) (quiet []))
  /\ run (route_post_aliases None sub_admin_post)
         (world (cache_with (JStr "abc123") 0) (quiet []))
     = (fail 403 SuperAdminOnly, world (cache_with (JStr "abc123") 0) (quiet []))
  /\ run (route_sub_password None sub_admin_post)
         (world (cache_with (JStr "abc123") 0) (quiet []))
     = (fail 403 SuperAdminOnly, world (cache_with (JStr "abc123") 0) (quiet []))
  /\ run (route_put_record None sub_admin_post)
         (world (cache_with (JStr "abc123") 0) (quiet []))
     = (fail 403 SuperAdminOnly, world (cache_with (JStr "abc123") 0) (quiet []))
  /\ run (route_delete_record None sub_admin_post)
         (world (cache_with (JStr "abc123") 0) (quiet []))
     = (fail 403 SuperAdminOnly, world (cache_with (JStr "abc123") 0) (quiet [])).
Proof.
  split.
  - destruct (sub_admin_forbidden None (as_role sub_admin sub_admin_post)
                delete_record_handler
                (world (cache_with (JStr "abc123") 0) (quiet []))) as (G & _).
    exact G.
  - destruct (sub_admin_forbidden None sub_admin_post delete_record_handler
                (world (cache_with (JStr "abc123") 0) (quiet []))) as (_ & F).
    apply F.
    + discriminate.
    + exists "abc123". split; [reflexivity | split; [discriminate | reflexivity]].
Defined.

(** With one record cached, a lazy resync and GET /api/records leave the
    world as it is. *)
Lemma lazy_sync_skips_witness :
  run (sync false) (world (cache_with JNull 0) (quiet []))
  = (tt, world (cache_with JNull 0) (quiet []))
  /\ run (route_get_records (request None "" JNull))
         (world (cache_with JNull 0) (quiet []))
     = (json (RecordsBody [row (JNum 1) 25000]),
        world (cache_with JNull 0) (quiet [])).
Proof.
  apply (lazy_sync_skips (request None "" JNull)
           (world (cache_with JNull 0) (quiet []))).
  discriminate.
Defined.

(** A fresh cache and a store whose records read times out: the lazy
    resync issues the three reads, [records] stays empty, and the next
    lazy resync issues them again. *)
Lemma empty_cache_reloads_witness :
  (issued (snd (run (sync false)
                    (world LocalCache_init
                           (answering [mkRows None (Some timeout_error)]))))
   = sync_reads
   /\ issued (snd (run (route_get_records (request None "" JNull))
                       (world LocalCache_init
                              (answering [mkRows None (Some timeout_error)]))))
      = sync_reads)
  /\ (records (cache (snd (run (sync false)
                    (world LocalCache_init
                           (answering [mkRows None (Some timeout_error)])))))
      = []
      /\ issued (snd (run (sync false)
                  (snd (run (sync false)
                    (world LocalCache_init
                           (answering [mkRows None (Some timeout_error)]))))))
         = sync_reads ++ sync_reads).
Proof.
  destruct (empty_cache_reloads (request None "" JNull) false
              (world LocalCache_init
                     (answering [mkRows None (Some timeout_error)]))) as (A & B).
  split.
  - destruct (A eq_refl) as (_ & I & G). split; [exact I | exact G].
  - apply B.
    + right. reflexivity.
    + left. reflexivity.
Defined.

(** The sub-admin wrote at [noon].  Five minutes later the same token is
    answered 429 with 5 minutes to wait and nothing is sent to the store;
    a millisecond after ten minutes the insert goes through; the
    super-admin token is never held back. *)
Lemma sub_admin_cooldown_witness :
  run (route_post_records None sub_admin_post)
      (world (cache_with (JStr "abc123") noon) (quiet [noon + 300000]))
  = (fail 429 (TooFrequent 5), world (cache_with (JStr "abc123") noon) (quiet []))
  /\ fst (run (route_post_records None sub_admin_post)
              (world (cache_with (JStr "abc123") noon)
                     (quiet [noon + 600001; noon + 600002])))
     = json Success
  /\ fst (run (route_post_records None admin_post)
              (world (cache_with (JStr "abc123") noon) (quiet [])))
     = json Success.
Proof.
  split; [| split].
  - destruct (sub_admin_cooldown None sub_admin_post
                (world (cache_with (JStr "abc123") noon) (quiet [noon + 300000])))
      as (_ & S & _).
    destruct S as (T & _).
    + discriminate.
    + exists "abc123". split; [reflexivity | split; [discriminate | reflexivity]].
    + destruct T as (R & _); [reflexivity | exact R].
  - destruct (sub_admin_cooldown None sub_admin_post
                (world (cache_with (JStr "abc123") noon)
                       (quiet [noon + 600001; noon + 600002])))
      as (_ & S & _).
    destruct S as (_ & G).
    + discriminate.
    + exists "abc123". split; [reflexivity | split; [discriminate | reflexivity]].
    + destruct G as (R & _); [discriminate | rewrite R; reflexivity].
  - destruct (sub_admin_cooldown None admin_post
                (world (cache_with (JStr "abc123") noon) (quiet [])))
      as (_ & _ & A).
    destruct A as (R & _); [reflexivity | rewrite R; reflexivity].
Defined.

(** A sub-admin's insert that the store refuses as a duplicate: 409, only
    the insert was issued and the cache is as before.  The same insert
    accepted: the timestamp becomes the clock value read afterwards.  A
    throttled request leaves the cache alone as well. *)
Lemma insert_failure_keeps_state_witness :
  (fst (run (insert_record (as_role sub_admin sub_admin_post))
            (world (cache_with (JStr "abc123") noon)
                   (refusing unique_violation [noon + 700000])))
   = fail 409 Duplicate
   /\ issued (snd (run (insert_record (as_role sub_admin sub_admin_post))
                       (world (cache_with (JStr "abc123") noon)
                              (refusing unique_violation [noon + 700000]))))
      = [InsertRecord new_game]
   /\ cache (snd (run (insert_record (as_role sub_admin sub_admin_post))
                      (world (cache_with (JStr "abc123") noon)
                             (refusing unique_violation [noon + 700000]))))
      = cache_with (JStr "abc123") noon)
  /\ lastSubActionTime
       (cache (snd (run (insert_record (as_role sub_admin sub_admin_post))
                        (world (cache_with (JStr "abc123") noon)
                               (quiet [noon + 700000])))))
     = noon + 700000
  /\ cache (snd (run (post_records_handler (as_role sub_admin sub_admin_post))
                     (world (cache_with (JStr "abc123") noon)
                            (quiet [noon + 300000]))))
     = cache_with (JStr "abc123") noon.
Proof.
  split; [| split].
  - destruct (insert_failure_keeps_state (as_role sub_admin sub_admin_post)
                (world (cache_with (JStr "abc123") noon)
                       (refusing unique_violation [noon + 700000])))
      as (F & _).
    destruct (F unique_violation eq_refl) as (D & _ & I & C).
    split; [apply D; reflexivity | split; [exact I | exact C]].
  - destruct (insert_failure_keeps_state (as_role sub_admin sub_admin_post)
                (world (cache_with (JStr "abc123") noon) (quiet [noon + 700000])))
      as (_ & S & _).
    destruct (S eq_refl) as (_ & _ & T & _).
    exact (T eq_refl).
  - destruct (insert_failure_keeps_state (as_role sub_admin sub_admin_post)
                (world (cache_with (JStr "abc123") noon) (quiet [noon + 300000])))
      as (_ & _ & K).
    apply K. discriminate.
Defined.

(** PUT /api/records/42 against a store that finds nothing under the
    string '42' and one row under the number 42: the retry's row comes
    back.  Nothing under either: 404 after exactly two updates.  For
    'abc' there is no retry, and a row on the first attempt is returned
    at once.  For '9007199254740993' the retry asks for the number
    9007199254740992. *)
Lemma update_by_id_witness :
  run (put_record_handler put_42)
      (world LocalCache_init
             (answering [mkRows (Some []) None;
                         mkRows (Some [row (JNum 42) 32000]) None;
                         mkRows (Some [row (JNum 42) 32000]) None]))
  = (json (SuccessRecord (row (JNum 42) 32000)),
     {| cache := {| records := [row (JNum 42) 32000]; aliases := JObj [];
                    subAdminPwd := JNull; lastSubActionTime := 0 |};
        env := answering [];
        issued := [UpdateRecord updates_42 (JStr "42");
                   UpdateRecord updates_42 (JNum 42)] ++ sync_reads |})
  /\ run (put_record_handler put_42)
         (world LocalCache_init
                (answering [mkRows (Some []) None; mkRows (Some []) None]))
     = (fail 404 RecordNotFound,
        {| cache := LocalCache_init; env := answering [];
           issued := [UpdateRecord updates_42 (JStr "42");
                      UpdateRecord updates_42 (JNum 42)] |})
  /\ run (put_record_handler put_abc)
         (world LocalCache_init (answering [mkRows (Some []) None]))
     = (fail 404 RecordNotFound,
        {| cache := LocalCache_init; env := answering [];
           issued := [UpdateRecord updates_42 (JStr "abc")] |})
  /\ fst (run (put_record_handler put_42)
              (world LocalCache_init
                     (answering [mkRows (Some [row (JStr "42") 32000]) None])))
     = json (SuccessRecord (row (JStr "42") 32000))
  /\ run (put_record_handler put_big)
         (world LocalCache_init
                (answering [mkRows (Some []) None; mkRows (Some []) None]))
     = (fail 404 RecordNotFound,
        {| cache := LocalCache_init; env := answering [];
           issued := [UpdateRecord updates_42 (JStr "9007199254740993");
                      UpdateRecord updates_42 (JNum 9007199254740992)] |})
  /\ parseInt "42" = JNum 42.
Proof.
  split; [| split; [| split; [| split; [| split]]]].
  - destruct (update_by_id put_42
                (world LocalCache_init
                   (answering [mkRows (Some []) None;
                               mkRows (Some [row (JNum 42) 32000]) None;
                               mkRows (Some [row (JNum 42) 32000]) None]))
                ltac:(reflexivity))
      as (_ & _ & R & _).
    destruct (R eq_refl eq_refl eq_refl) as (_ & S).
    destruct (S (row (JNum 42) 32000) [] eq_refl eq_refl) as (Q & _).
    exact Q.
  - destruct (update_by_id put_42
                (world LocalCache_init
                   (answering [mkRows (Some []) None; mkRows (Some []) None]))
                ltac:(reflexivity))
      as (_ & _ & R & _).
    destruct (R eq_refl eq_refl eq_refl) as (N & _).
    destruct (N eq_refl eq_refl) as (Q & _).
    exact Q.
  - destruct (update_by_id put_abc
                (world LocalCache_init (answering [mkRows (Some []) None]))
                ltac:(reflexivity))
      as (_ & _ & _ & R & _).
    destruct (R eq_refl eq_refl eq_refl) as (Q & _).
    exact Q.
  - destruct (update_by_id put_42
                (world LocalCache_init
                   (answering [mkRows (Some [row (JStr "42") 32000]) None]))
                ltac:(reflexivity))
      as (_ & _ & _ & _ & R & _).
    destruct (R (row (JStr "42") 32000) [] eq_refl eq_refl) as (Q & _).
    rewrite Q. reflexivity.
  - destruct (update_by_id put_big
                (world LocalCache_init
                   (answering [mkRows (Some []) None; mkRows (Some []) None]))
                ltac:(reflexivity))
      as (_ & _ & R & _).
    destruct (R eq_refl eq_refl eq_refl) as (N & _).
    destruct (N eq_refl eq_refl) as (Q & _).
    exact Q.
  - destruct (update_by_id put_42
                (world LocalCache_init (answering []))
                ltac:(reflexivity))
      as (_ & _ & _ & _ & _ & S & _).
    apply S. reflexivity.
Defined.

(** PUT /api/records/42 against a store that rejects the string '42' with
    an error: a row from the retry is answered 200, an error from the retry
    is answered 500 with the retry's message, and an empty retry 404. *)
Lemma retry_replaces_first_error_witness :
  fst (run (put_record_handler put_42)
           (world LocalCache_init
                  (answering [mkRows None (Some bad_uuid);
                              mkRows (Some [row (JNum 42) 32000]) None])))
  = json (SuccessRecord (row (JNum 42) 32000))
  /\ fst (run (put_record_handler put_42)
              (world LocalCache_init
                     (answering [mkRows None (Some bad_uuid);
                                 mkRows None (Some timeout_error)])))
     = fail 500 (Thrown "canceling statement due to statement timeout")
  /\ fst (run (put_record_handler put_42)
              (world LocalCache_init
                     (answering [mkRows None (Some bad_uuid);
                                 mkRows (Some []) None])))
     = fail 404 RecordNotFound.
Proof.
  split; [| split].
  - destruct (retry_replaces_first_error put_42
                (world LocalCache_init
                   (answering [mkRows None (Some bad_uuid);
                               mkRows (Some [row (JNum 42) 32000]) None]))
                ltac:(reflexivity) ltac:(reflexivity) ltac:(left; reflexivity))
      as (_ & _ & S & _).
    rewrite (S (row (JNum 42) 32000) [] eq_refl eq_refl). reflexivity.
  - destruct (retry_replaces_first_error put_42
                (world LocalCache_init
                   (answering [mkRows None (Some bad_uuid);
                               mkRows None (Some timeout_error)]))
                ltac:(reflexivity) ltac:(reflexivity) ltac:(left; reflexivity))
      as (_ & _ & _ & F & _).
    rewrite (F timeout_error eq_refl). reflexivity.
  - destruct (retry_replaces_first_error put_42
                (world LocalCache_init
                   (answering [mkRows None (Some bad_uuid);
                               mkRows (Some []) None]))
                ltac:(reflexivity) ltac:(reflexivity) ltac:(left; reflexivity))
      as (_ & _ & _ & _ & N).
    rewrite (N (or_intror eq_refl) eq_refl). reflexivity.
Defined.

(** DELETE /api/records/99 with no record 99 in the store (the store holds
    nothing at all): the delete reports no error and the answer is
    [{ success: true }]. *)
Lemma delete_always_succeeds_witness :
  run (delete_record_handler delete_99) (world (cache_with JNull 0) (quiet []))
  = (json Success,
     {| cache := LocalCache_init; env := quiet [];
        issued := DeleteRecord (JStr "99") :: sync_reads |}).
Proof.
  destruct (delete_always_succeeds delete_99
              (world (cache_with JNull 0) (quiet []))) as (S & _).
  exact (S eq_refl).
Defined.

(* ================================================================== *)
(** ** The remaining handlers, run to completion *)
(* ================================================================== *)

Section MoreHandlerFacts.

Context {E : Type} {Env : Environment E}.
Variable pw : option string.

Lemma run_authMiddleware (req : Request) (next : Request -> prog Response)
    (w : World E) :
  run (authMiddleware pw req next) w =
    if token_strict_equals (x_admin_token req) (JStr (ADMIN_PASSWORD pw)) then
      run (next (with_userRole admin req)) w
    else if (truthy (subAdminPwd (cache w))
             && token_strict_equals (x_admin_token req) (subAdminPwd (cache w)))%bool
    then run (next (with_userRole sub_admin req)) w
    else (fail 401 BadPassword, w).
Proof.
  unfold authMiddleware.
  destruct (token_strict_equals _ (JStr _)); [reflexivity |].
  cbn. now destruct (_ && _)%bool.
Qed.

Lemma run_sync_lazy (w : World E) :
  run (sync false) w =
    (tt, match records (cache w) with [] => resynced w | _ :: _ => w end).
Proof.
  destruct (records (cache w)) as [| r rest] eqn:R.
  - apply run_sync_reload. now right.
  - apply run_sync_skip. congruence.
Qed.

Lemma run_login_handler (req : Request) (w : World E) :
  run (login_handler req) w =
    (match userRole req with
     | Some r => json (SuccessRole r)
     | None => json Success
     end, w).
Proof. unfold login_handler. now destruct (userRole req). Qed.

Lemma run_get_aliases_handler (req : Request) (w : World E) :
  run (get_aliases_handler req) w =
    let w' := snd (run (sync false) w) in
    (json (ValueBody (aliases (cache w'))), w').
Proof.
  unfold get_aliases_handler. rewrite run_bind, run_await_call. reflexivity.
Qed.

Lemma run_post_aliases_handler (req : Request) (w : World E) :
  run (post_aliases_handler req) w =
    let q := UpsertSetting "mahjong_aliases" (body req) in
    match write_error (answer q w) with
    | Some error => (fail 500 (Thrown (message error)), after_query q w)
    | None => (json Success, resynced (after_query q w))
    end.
Proof.
  unfold post_aliases_handler. rewrite run_bind. cbn.
  destruct (write_error _) as [error |]; [reflexivity |].
  rewrite run_bind, run_awaited_sync. reflexivity.
Qed.

Lemma run_sub_password_handler (req : Request) (w : World E) :
  run (sub_password_handler req) w =
    if nullish (body req) then (fail 500 NoProperties, w)
    else
      let q := UpsertSetting "sub_admin_password" (js_get "password" (body req)) in
      match write_error (answer q w) with
      | Some error => (fail 500 (Thrown (message error)), after_query q w)
      | None => (json Success, resynced (after_query q w))
      end.
Proof.
  unfold sub_password_handler. destruct (nullish (body req)); [reflexivity |].
  rewrite run_bind. cbn.
  destruct (write_error _) as [error |]; [reflexivity |].
  rewrite run_bind, run_awaited_sync. reflexivity.
Qed.

Lemma run_put_record_nullish (req : Request) (w : World E) :
  nullish (body req) = true ->
  run (put_record_handler req) w = (fail 500 NoProperties, w).
Proof. intros B. unfold put_record_handler. now rewrite B. Qed.

Lemma cache_resynced (w : World E) :
  cache (resynced w)
  = loaded (answer SelectRecords w)
      (answer (SelectSettingValue "mahjong_aliases") (after_query SelectRecords w))
      (answer (SelectSettingValue "sub_admin_password")
         (after_query (SelectSettingValue "mahjong_aliases")
            (after_query SelectRecords w)))
      (cache w).
Proof. reflexivity. Qed.

End MoreHandlerFacts.

(* ================================================================== *)
(** ** Every route at once: status codes, the cache on errors, the
       timestamp, and who can issue which query *)
(* ================================================================== *)

Section RouteFacts.

Context {E : Type} {Env : Environment E}.
Variable pw : option string.

Lemma issued_after_run {A : Type} (p : prog A) (w : World E) :
  exists new, issued (snd (run p w)) = issued w ++ new.
Proof.
  revert w. induction p as
    [a | k IH | v k IH | v k IH | v k IH | t k IH | k IH | q k IH
     | q1 q2 q3 k IH | k IH]; intros w; cbn [run].
  - exists []. cbn. now rewrite app_nil_r.
  - apply IH.
  - apply (IH (with_cache (set_records v) w)).
  - apply (IH (with_cache (set_aliases v) w)).
  - apply (IH (with_cache (set_subAdminPwd v) w)).
  - apply (IH (with_cache (set_lastSubActionTime t) w)).
  - apply (IH (clock_value w) (after_clock w)).
  - destruct (IH (answer q w) (after_query q w)) as [new Q].
    exists (q :: new). rewrite Q. cbn. now rewrite <- app_assoc.
  - destruct (IH (answer q1 w) (answer q2 (after_query q1 w))
                 (answer q3 (after_query q2 (after_query q1 w)))
                 (after_query q3 (after_query q2 (after_query q1 w))))
      as [new Q].
    exists (q1 :: q2 :: q3 :: new). rewrite Q. cbn. now rewrite <- !app_assoc.
  - apply IH.
Qed.

(** Splits a route into the cases of its middleware and of the replies
    its handler looks at. *)
Ltac by_auth req w :=
  rewrite ?run_authMiddleware;
  destruct (token_strict_equals (x_admin_token req) (JStr (ADMIN_PASSWORD pw)))
    eqn:IsAdmin;
  [| destruct (truthy (subAdminPwd (cache w))
               && token_strict_equals (x_admin_token req) (subAdminPwd (cache w)))%bool
       eqn:IsSub];
  rewrite ?run_requireSuperAdmin; cbn [userRole with_userRole body params_id].

Ltac by_reply :=
  repeat match goal with
    | |- context [match write_error ?r with _ => _ end] =>
        destruct (write_error r) eqn:?
    | |- context [match rows_error ?r with _ => _ end] =>
        destruct (rows_error r) eqn:?
    | |- context [if no_rows ?d then _ else _] => destruct (no_rows d) eqn:?
    | |- context [if (?a && ?b)%bool then _ else _] => destruct (a && b)%bool eqn:?
    | |- context [if String.eqb ?a ?b then _ else _] => destruct (String.eqb a b) eqn:?
    | |- context [if ?a <? ?b then _ else _] => destruct (a <? b) eqn:?
    | |- context [if nullish ?b then _ else _] => destruct (nullish b) eqn:?
    | |- context [match records ?c with _ => _ end] => destruct (records c) eqn:?
    end.

Ltac by_handler req w :=
  rewrite ?run_login_handler, ?run_sub_password_handler,
    ?run_get_records_handler, ?run_get_aliases_handler,
    ?run_post_records_handler, ?run_post_aliases_handler,
    ?run_delete_record_handler, ?run_sync_lazy;
  cbn [userRole with_userRole body params_id]; cbv zeta;
  rewrite ?run_insert_record; cbv zeta;
  cbn [userRole with_userRole body params_id].

Lemma run_put_record_cases (req : Request) (w : World E) :
  run (put_record_handler req) w =
    if nullish (body req) then (fail 500 NoProperties, w)
    else
      let id := params_id req in
      let updates := js_delete "id" (body req) in
      let q1 := UpdateRecord updates (JStr id) in
      let q2 := UpdateRecord updates (parseInt id) in
      let w1 := after_query q1 w in
      if (no_rows (rows_data (answer q1 w)) && test_decimal id)%bool then
        run (finish_update (rows_data (answer q2 w1)) (rows_error (answer q2 w1)))
            (after_query q2 w1)
      else
        run (finish_update (rows_data (answer q1 w)) (rows_error (answer q1 w))) w1.
Proof.
  destruct (nullish (body req)) eqn:B.
  - now apply run_put_record_nullish.
  - now apply run_put_record_handler.
Qed.

(** X16.  The status codes of each route.  Whatever the request and the
    store's replies, login answers 200 or 401; GET /api/records answers
    200 or 500; GET /api/aliases answers 200 only; the record insert
    answers 200, 401, 409, 429 or 500; alias write, password write and
    record delete answer 200, 401, 403 or 500; the record update answers
    200, 401, 403, 404 or 500. *)
Theorem route_statuses (rt : Route) (req : Request) (w : World E) :
  In (status (fst (run (serve pw rt req) w))) (statuses rt).
Proof.
  destruct rt; cbn [serve statuses];
    unfold route_login, route_sub_password, route_get_records, route_post_records,
      route_get_aliases, route_post_aliases, route_delete_record, route_put_record;
    by_auth req w; by_handler req w;
    rewrite ?run_put_record_cases; cbv zeta; by_reply;
    rewrite ?run_finish_update; by_reply;
    cbn [fst status json fail In]; auto 8.
Qed.

Ltac unfold_routes :=
  cbn [serve];
  unfold route_login, route_sub_password, route_get_records, route_post_records,
    route_get_aliases, route_post_aliases, route_delete_record, route_put_record.

Ltac by_put :=
  rewrite ?run_put_record_cases; cbv zeta; by_reply;
  rewrite ?run_finish_update; by_reply.

(** X17.  On every route, a request that is answered with anything but
    200 leaves the whole cache as it was: records, aliases, sub-admin
    password and the time of the last sub-admin write. *)
Theorem errors_leave_cache (rt : Route) (req : Request) (w : World E) :
  status (fst (run (serve pw rt req) w)) <> 200 ->
  cache (snd (run (serve pw rt req) w)) = cache w.
Proof.
  destruct rt; unfold_routes; by_auth req w; by_handler req w; by_put;
    cbn [fst snd status json fail]; intros H; try reflexivity;
    exfalso; apply H; reflexivity.
Qed.

Lemma issued_stamped (role : option Role) (w : World E) :
  issued (stamped role w) = issued w.
Proof. now destruct role as [[|] |]. Qed.

(** X18.  The time of the last sub-admin write changes in one way only:
    on every route, if a request leaves [lastSubActionTime] different from
    what it was, then the request was a POST /api/records answered
    [{ success: true }] for a token that resolved to 'sub_admin'. *)
Theorem only_sub_admin_insert_stamps (rt : Route) (req : Request) (w : World E) :
  let result := run (serve pw rt req) w in
  lastSubActionTime (cache (snd result)) <> lastSubActionTime (cache w) ->
  rt = PostRecords
  /\ fst result = json Success
  /\ x_admin_token req <> Some (ADMIN_PASSWORD pw)
  /\ sub_secret_matches (cache w) (x_admin_token req).
Proof.
  cbv zeta.
  destruct rt; unfold_routes; by_auth req w; by_handler req w; by_put;
    cbn [fst snd]; intros H;
    try (exfalso; apply H; reflexivity).
  repeat split.
  - intros T. apply token_equals_string in T. congruence.
  - now apply accepts_sub_secret.
Qed.

Lemma sync_reads_are_reads : Forall (fun q => is_read q = true) sync_reads.
Proof. repeat constructor. Qed.

(** Brings the queries issued by a finished handler into the form
    [issued w ++ new]. *)
Ltac list_issued :=
  cbn [fst snd]; rewrite ?issued_resynced, ?issued_stamped;
  cbn [issued after_query after_clock with_cache];
  rewrite <- ?app_assoc.

(** X19.  What a token can make the server send to the store.  On every
    route, a request whose token resolves to no role causes reads only
    (the three reads of a resync, from the GET routes), and a request
    whose token resolves to 'sub_admin' causes reads and at most the insert
    of its own body: never an upsert of a setting, a delete or an update. *)
Theorem queries_by_role (rt : Route) (req : Request) (w : World E) :
  let token := x_admin_token req in
  let result := run (serve pw rt req) w in
  token <> Some (ADMIN_PASSWORD pw) ->
  (~ sub_secret_matches (cache w) token ->
     exists new, issued (snd result) = issued w ++ new
                 /\ Forall (fun q => is_read q = true) new)
  /\ (sub_secret_matches (cache w) token ->
      exists new, issued (snd result) = issued w ++ new
                  /\ Forall (fun q => is_read q = true \/ q = InsertRecord (body req))
                       new).
Proof.
  cbv zeta. intros N.
  assert (NA : token_strict_equals (x_admin_token req) (JStr (ADMIN_PASSWORD pw))
               = false).
  { destruct (token_strict_equals _ _) eqn:Q; [| reflexivity].
    apply token_equals_string in Q. contradiction. }
  split; intros S.
  - assert (NS : (truthy (subAdminPwd (cache w))
                  && token_strict_equals (x_admin_token req) (subAdminPwd (cache w)))%bool
                 = false).
    { destruct (_ && _)%bool eqn:Q; [| reflexivity].
      apply accepts_sub_secret in Q. contradiction. }
    destruct rt; unfold_routes; rewrite ?run_authMiddleware, ?NA, ?NS;
      by_handler req w; by_reply; list_issued;
      first [ exists []; split; [now rewrite app_nil_r | constructor]
            | exists sync_reads; split; [reflexivity | apply sync_reads_are_reads] ].
  - apply accepts_sub_secret in S.
    destruct rt; unfold_routes; rewrite ?run_authMiddleware, ?NA, ?S;
      rewrite ?run_requireSuperAdmin; cbn [userRole with_userRole body];
      by_handler req w; by_reply; list_issued;
      first [ exists []; split; [now rewrite app_nil_r | constructor]
            | exists sync_reads; split;
              [reflexivity
              | apply Forall_impl with (2 := sync_reads_are_reads); tauto]
            | exists [InsertRecord (body req)]; split;
              [reflexivity | repeat constructor; now right]
            | exists (InsertRecord (body req) :: sync_reads); split;
              [reflexivity
              | constructor; [now right |];
                apply Forall_impl with (2 := sync_reads_are_reads); tauto] ].
Qed.

End RouteFacts.

(* ================================================================== *)
(** ** Login, aliases, the sub-admin password, and the cooldown over two
       requests *)
(* ================================================================== *)

Section HandlerExtras.

Context {E : Type} {Env : Environment E}.
Variable pw : option string.

(** X1.  POST /api/login answers with the role the token resolves to and
    has no effect: the world is left as it was.  The answer is
    [{ success, role: 'admin' }] exactly for the super-admin secret,
    [{ success, role: 'sub_admin' }] exactly for another token that is the
    cached non-empty sub-admin password, and 401 exactly for the rest. *)
Theorem login_reports_role (req : Request) (w : World E) :
  let token := x_admin_token req in
  let result := run (route_login pw req) w in
  snd result = w
  /\ (fst result = json (SuccessRole admin) <-> token = Some (ADMIN_PASSWORD pw))
  /\ (fst result = json (SuccessRole sub_admin)
      <-> token <> Some (ADMIN_PASSWORD pw) /\ sub_secret_matches (cache w) token)
  /\ (fst result = fail 401 BadPassword
      <-> token <> Some (ADMIN_PASSWORD pw) /\ ~ sub_secret_matches (cache w) token).
Proof.
  cbv zeta. unfold route_login. rewrite run_authMiddleware.
  destruct (token_strict_equals _ (JStr _)) eqn:A.
  - apply token_equals_string in A. rewrite run_login_handler. cbn.
    repeat split; intros; try discriminate; try tauto; try easy.
  - assert (N : x_admin_token req <> Some (ADMIN_PASSWORD pw)).
    { intros T. apply token_equals_string in T. congruence. }
    destruct (_ && _)%bool eqn:S.
    + apply accepts_sub_secret in S. rewrite run_login_handler. cbn.
      repeat split; intros; try discriminate; try tauto; try easy.
    + assert (NS : ~ sub_secret_matches (cache w) (x_admin_token req)).
      { intros M. apply accepts_sub_secret in M. congruence. }
      cbn. repeat split; intros; try discriminate; try tauto; try easy.
Qed.

(** X2.  GET /api/aliases always answers 200.  With records in the cache
    it answers the cached aliases, whatever they are, without a query;
    with no records cached it reloads and answers the [value] of the
    aliases row, or [{}] when that read returned no row. *)
Theorem get_aliases_never_fails (req : Request) (w : World E) :
  let aliases_reply :=
    answer (SelectSettingValue "mahjong_aliases") (after_query SelectRecords w) in
  let result := run (route_get_aliases req) w in
  status (fst result) = 200
  /\ (records (cache w) <> [] ->
      result = (json (ValueBody (aliases (cache w))), w))
  /\ (records (cache w) = [] ->
      result = (json (ValueBody (value_or (JObj []) aliases_reply)), resynced w)
      /\ (single_data aliases_reply = None ->
          fst result = json (ValueBody (JObj [])))).
Proof.
  cbv zeta. unfold route_get_aliases. rewrite run_get_aliases_handler.
  cbv zeta. rewrite run_sync_lazy. cbn [snd]. split; [| split].
  - reflexivity.
  - intros N. destruct (records (cache w)); [congruence | reflexivity].
  - intros R. rewrite R. split; [reflexivity |].
    intros D. cbn [fst]. rewrite cache_resynced. cbn [aliases loaded].
    unfold value_or. now rewrite D.
Qed.

(** X3.  POST /api/aliases with the super-admin secret: one upsert under
    the key 'mahjong_aliases' whose value is the whole request body.  An
    error from the store is answered 500 with its message, and nothing
    else is issued; otherwise the answer is [{ success: true }] after a
    forced resync, and the cached aliases are what the store returned to
    that resync's read, not the request body. *)
Theorem aliases_replaced_wholesale (req : Request) (w : World E) :
  let q := UpsertSetting "mahjong_aliases" (body req) in
  let result := run (route_post_aliases pw req) w in
  x_admin_token req = Some (ADMIN_PASSWORD pw) ->
  (forall error, write_error (answer q w) = Some error ->
     result = (fail 500 (Thrown (message error)), after_query q w))
  /\ (write_error (answer q w) = None ->
      result = (json Success, resynced (after_query q w))
      /\ issued (snd result) = issued w ++ q :: sync_reads
      /\ aliases (cache (snd result))
         = value_or (JObj [])
             (answer (SelectSettingValue "mahjong_aliases")
                (after_query SelectRecords (after_query q w)))).
Proof.
  cbv zeta. intros T. unfold route_post_aliases.
  rewrite (auth_admin pw _ _ _ T), run_requireSuperAdmin.
  cbn [userRole with_userRole]. rewrite run_post_aliases_handler. cbv zeta.
  cbn [body with_userRole]. split.
  - intros error H. now rewrite H.
  - intros H. rewrite H. split; [reflexivity |]. split; [| reflexivity].
    cbn [snd]. rewrite issued_resynced. cbn. now rewrite <- app_assoc.
Qed.

(** X4.  POST /api/settings/sub-password with the super-admin secret.  A
    body that is null or undefined is answered 500 and nothing is issued.
    Otherwise one upsert under the key 'sub_admin_password' carries the
    body's [password] property as it is; a store error is answered 500 with its message and nothing
    else is issued; otherwise a forced resync follows and the cached
    password is what the store returned to that resync's read. *)
Theorem sub_password_stored (req : Request) (w : World E) :
  let q := UpsertSetting "sub_admin_password" (js_get "password" (body req)) in
  let result := run (route_sub_password pw req) w in
  x_admin_token req = Some (ADMIN_PASSWORD pw) ->
  (nullish (body req) = true -> result = (fail 500 NoProperties, w))
  /\ (nullish (body req) = false ->
      (forall error, write_error (answer q w) = Some error ->
         result = (fail 500 (Thrown (message error)), after_query q w))
      /\ (write_error (answer q w) = None ->
          result = (json Success, resynced (after_query q w))
          /\ issued (snd result) = issued w ++ q :: sync_reads
          /\ subAdminPwd (cache (snd result))
             = value_or JNull
                 (answer (SelectSettingValue "sub_admin_password")
                    (after_query (SelectSettingValue "mahjong_aliases")
                       (after_query SelectRecords (after_query q w)))))).
Proof.
  cbv zeta. intros T. unfold route_sub_password.
  rewrite (auth_admin pw _ _ _ T), run_requireSuperAdmin.
  cbn [userRole with_userRole]. rewrite run_sub_password_handler. cbv zeta.
  cbn [body with_userRole]. split.
  - intros B. now rewrite B.
  - intros B. rewrite B. split.
    + intros error H. now rewrite H.
    + intros H. rewrite H. split; [reflexivity |]. split; [| reflexivity].
      cbn [snd]. rewrite issued_resynced. cbn. now rewrite <- app_assoc.
Qed.

(** X5.  Once POST /api/settings/sub-password has succeeded, role
    resolution follows the password that the store returned to the resync:
    a non-empty string other than the super-admin secret is accepted as
    'sub_admin' at once, and when the store returned no row or the empty
    string every token but the super-admin secret is answered 401, so that
    storing an empty password switches the sub-admin role off. *)
Theorem new_password_takes_effect (req attempt : Request) (w : World E) :
  let q := UpsertSetting "sub_admin_password" (js_get "password" (body req)) in
  let stored :=
    answer (SelectSettingValue "sub_admin_password")
      (after_query (SelectSettingValue "mahjong_aliases")
         (after_query SelectRecords (after_query q w))) in
  let w' := snd (run (route_sub_password pw req) w) in
  x_admin_token req = Some (ADMIN_PASSWORD pw) ->
  nullish (body req) = false ->
  write_error (answer q w) = None ->
  x_admin_token attempt <> Some (ADMIN_PASSWORD pw) ->
  (forall s, single_data stored = Some (mkSettingRow (JStr s)) ->
     s <> "" -> x_admin_token attempt = Some s ->
     run (route_login pw attempt) w' = (json (SuccessRole sub_admin), w'))
  /\ (forall s, single_data stored = Some (mkSettingRow (JStr s)) ->
      x_admin_token attempt <> Some s ->
      run (route_login pw attempt) w' = (fail 401 BadPassword, w'))
  /\ (single_data stored = None
      \/ single_data stored = Some (mkSettingRow (JStr "")) ->
      run (route_login pw attempt) w' = (fail 401 BadPassword, w')).
Proof.
  cbv zeta. intros T B H N.
  assert (P : subAdminPwd (cache (snd (run (route_sub_password pw req) w)))
              = value_or JNull
                  (answer (SelectSettingValue "sub_admin_password")
                     (after_query (SelectSettingValue "mahjong_aliases")
                        (after_query SelectRecords
                           (after_query
                              (UpsertSetting "sub_admin_password"
                                 (js_get "password" (body req))) w))))).
  { unfold route_sub_password.
    rewrite (auth_admin pw _ _ _ T), run_requireSuperAdmin.
    cbn [userRole with_userRole]. rewrite run_sub_password_handler. cbv zeta.
    cbn [body with_userRole]. now rewrite B, H. }
  unfold route_login. split; [| split].
  - intros s D Ne A. rewrite (auth_sub_admin pw _ _ _ N).
    + rewrite run_login_handler. reflexivity.
    + exists s. rewrite P. unfold value_or. rewrite D. auto.
  - intros s D A. apply (auth_rejected pw _ _ _ N).
    intros (s' & Q & _ & A'). rewrite P in Q. unfold value_or in Q.
    rewrite D in Q. cbn in Q. congruence.
  - intros D. apply (auth_rejected pw _ _ _ N). apply no_sub_secret.
    rewrite P. unfold value_or. destruct D as [-> | ->]; cbn; auto.
Qed.

(** X6.  The minutes reported by a throttled write.  For a request with
    role 'sub_admin' inside the cooldown the answer is 429 with at least
    one minute to wait, never zero; the figure is at most ten exactly when
    the clock is not behind the stored timestamp. *)
Theorem remaining_minutes_bounds (req : Request) (w : World E) :
  let timeDiff := clock_value w - lastSubActionTime (cache w) in
  userRole req = Some sub_admin ->
  timeDiff < COOLDOWN ->
  exists remaining,
    run (post_records_handler req) w
    = (fail 429 (TooFrequent remaining), after_clock w)
    /\ 1 <= remaining
    /\ (remaining <= 10 <-> 0 <= timeDiff).
Proof.
  cbv zeta. intros R L.
  exists (Math_ceil_div
            (COOLDOWN - (clock_value w - lastSubActionTime (cache w))) 60000).
  rewrite run_post_records_handler, R. cbv zeta.
  pose proof L as L'. apply Z.ltb_lt in L'. rewrite L'.
  split; [reflexivity |].
  pose proof (Math_ceil_div_spec
                (COOLDOWN - (clock_value w - lastSubActionTime (cache w)))
                60000 ltac:(lia)) as S.
  assert (C : COOLDOWN = 600000) by reflexivity.
  rewrite C in *. lia.
Qed.

(** X7.  Two writes in a row.  When a sub-admin's POST /api/records has
    succeeded, the stored timestamp is the clock value it read after its
    insert.  A following request whose token resolves to 'sub_admin' is
    answered 429, without a query, as long as its own clock reading is
    less than the cooldown past that timestamp, and is not answered 429
    from then on. *)
Theorem back_to_back_writes (first second : Request) (w : World E) :
  let result := run (route_post_records pw first) w in
  let w' := snd result in
  let stamp := clock_value (after_query (InsertRecord (body first)) (after_clock w)) in
  x_admin_token first <> Some (ADMIN_PASSWORD pw) ->
  sub_secret_matches (cache w) (x_admin_token first) ->
  fst result = json Success ->
  x_admin_token second <> Some (ADMIN_PASSWORD pw) ->
  sub_secret_matches (cache w') (x_admin_token second) ->
  lastSubActionTime (cache w') = stamp
  /\ (clock_value w' - stamp < COOLDOWN ->
      exists remaining,
        run (route_post_records pw second) w'
        = (fail 429 (TooFrequent remaining), after_clock w'))
  /\ (COOLDOWN <= clock_value w' - stamp ->
      status (fst (run (route_post_records pw second) w')) <> 429).
Proof.
  cbv zeta. intros N1 S1 OK N2 S2.
  assert (R : run (route_post_records pw first) w
              = run (post_records_handler (with_userRole sub_admin first)) w).
  { unfold route_post_records. now apply auth_sub_admin. }
  rewrite R in OK, S2 |- *. clear R.
  rewrite run_post_records_handler in OK, S2 |- *.
  cbn [userRole with_userRole] in OK, S2 |- *. cbv zeta in OK, S2 |- *.
  destruct (_ <? COOLDOWN) eqn:Throttled; [discriminate OK |].
  rewrite run_insert_record in OK, S2 |- *. cbv zeta in OK, S2 |- *.
  cbn [body with_userRole userRole] in OK, S2 |- *.
  destruct (write_error _) as [error |] eqn:W.
  { cbn in OK. destruct (String.eqb _ _); discriminate OK. }
  cbn [snd] in S2 |- *.
  set (w1 := resynced _) in *.
  assert (Stamp : lastSubActionTime (cache w1)
                  = clock_value (after_query (InsertRecord (body first))
                                   (after_clock w))) by reflexivity.
  split; [exact Stamp |].
  unfold route_post_records. rewrite (auth_sub_admin pw _ _ _ N2 S2).
  rewrite run_post_records_handler. cbn [userRole with_userRole]. cbv zeta.
  rewrite Stamp. split.
  - intros L. apply Z.ltb_lt in L. rewrite L. eexists. reflexivity.
  - intros G. apply Z.ltb_ge in G. rewrite G.
    rewrite run_insert_record. cbv zeta.
    match goal with
    | |- context [write_error ?r] => destruct (write_error r) as [error |]
    end; cbn; [destruct (String.eqb _ _); cbn |]; lia.
Qed.

(** X8.  A forced resync keeps nothing of the old snapshot.  Whatever was
    cached, a records read without data empties the cached records, an
    aliases read without a row resets the aliases to [{}], and a password
    read without a row resets the password to null, after which every
    token but the super-admin secret is answered 401.  The time of the
    last sub-admin write is not touched. *)
Theorem failed_reads_reset_cache (req : Request) (next : Request -> prog Response)
    (w : World E) :
  let w1 := after_query SelectRecords w in
  let w2 := after_query (SelectSettingValue "mahjong_aliases") w1 in
  let w' := snd (run (sync true) w) in
  (rows_data (answer SelectRecords w) = None -> records (cache w') = [])
  /\ (single_data (answer (SelectSettingValue "mahjong_aliases") w1) = None ->
      aliases (cache w') = JObj [])
  /\ (single_data (answer (SelectSettingValue "sub_admin_password") w2) = None ->
      subAdminPwd (cache w') = JNull
      /\ (x_admin_token req <> Some (ADMIN_PASSWORD pw) ->
          run (authMiddleware pw req next) w' = (fail 401 BadPassword, w')))
  /\ lastSubActionTime (cache w') = lastSubActionTime (cache w).
Proof.
  cbv zeta. rewrite run_sync_reload by now left. cbn [snd].
  rewrite cache_resynced. cbn [records aliases subAdminPwd loaded].
  unfold data_or_empty, value_or. split; [| split; [| split]].
  - intros D. now rewrite D.
  - intros D. now rewrite D.
  - intros D. rewrite D. split; [reflexivity |].
    intros N. apply (auth_rejected pw _ _ _ N). apply no_sub_secret.
    rewrite cache_resynced. cbn [subAdminPwd loaded]. unfold value_or.
    rewrite D. auto.
  - reflexivity.
Qed.

(** X20.  When PUT /api/records/:id does not retry.  For a body that has
    properties, if the route parameter is not all decimal digits, or the
    first attempt returned a row, the first attempt decides alone and is
    the only update issued: its error is answered 500 with its message
    (also when it came with rows), zero rows are answered 404, and a row
    without an error 200 with that row. *)
Theorem first_attempt_decides (req : Request) (w : World E) :
  let id := params_id req in
  let q1 := UpdateRecord (js_delete "id" (body req)) (JStr id) in
  let first := answer q1 w in
  let w1 := after_query q1 w in
  let result := run (put_record_handler req) w in
  nullish (body req) = false ->
  test_decimal id = false
  \/ (exists r others, rows_data first = Some (r :: others)) ->
  (forall error, rows_error first = Some error ->
     result = (fail 500 (Thrown (message error)), w1))
  /\ (rows_error first = None ->
      (rows_data first = None \/ rows_data first = Some [] ->
         result = (fail 404 RecordNotFound, w1))
      /\ (forall r others, rows_data first = Some (r :: others) ->
          result = (json (SuccessRecord r), resynced w1)))
  /\ (forall updates n, ~ In (UpdateRecord updates (JNum n)) (issued w) ->
      ~ In (UpdateRecord updates (JNum n)) (issued (snd result))).
Proof.
  cbv zeta. intros B H.
  assert (N : (no_rows (rows_data (answer
                  (UpdateRecord (js_delete "id" (body req)) (JStr (params_id req))) w))
               && test_decimal (params_id req))%bool = false).
  { destruct H as [T | (r & others & D)].
    - rewrite T. apply andb_false_r.
    - now rewrite D. }
  rewrite (run_put_record_handler req w B). cbv zeta. rewrite N.
  rewrite run_finish_update. split; [| split].
  - intros error Q. now rewrite Q.
  - intros Q. rewrite Q. split.
    + intros D. now destruct D as [-> | ->].
    + intros r others D. now rewrite D.
  - intros updates n NotBefore.
    assert (I : forall tail,
               Forall (fun q => is_read q = true) tail ->
               ~ In (UpdateRecord updates (JNum n))
                    ((issued w
                      ++ [UpdateRecord (js_delete "id" (body req))
                            (JStr (params_id req))]) ++ tail)).
    { intros tail F I. apply in_app_or in I. destruct I as [I | I].
      - apply in_app_or in I. destruct I as [I | [I | []]];
          [contradiction | discriminate I].
      - rewrite Forall_forall in F. apply F in I. discriminate I. }
    destruct (rows_error _); [| destruct (no_rows _)]; cbn [snd].
    + rewrite <- (app_nil_r (issued (after_query _ w))). apply I. constructor.
    + rewrite <- (app_nil_r (issued (after_query _ w))). apply I. constructor.
    + rewrite issued_resynced. apply I. repeat constructor.
Qed.

End HandlerExtras.

(* ================================================================== *)
(** ** Requests in flight together: the cooldown check and cold reads *)
(* ================================================================== *)

Section LoopExtras.

Context {E : Type} {Env : Environment E}.
Variable pw : option string.

(** The first turn of POST /api/records for a sub-admin past the cooldown
    reads the clock and stops at the insert, with the cache untouched. *)
Lemma turn_post_records_passes (req : Request) (c : LocalCache) (e : E) :
  x_admin_token req <> Some (ADMIN_PASSWORD pw) ->
  sub_secret_matches c (x_admin_token req) ->
  COOLDOWN <= fst (date_now e) - lastSubActionTime c ->
  exists k,
    turn (request_task pw PostRecords req) c e
    = (Await (InsertRecord (body req)) k, (c, snd (date_now e))).
Proof.
  intros N S G.
  assert (NA : token_strict_equals (x_admin_token req) (JStr (ADMIN_PASSWORD pw))
               = false).
  { destruct (token_strict_equals _ _) eqn:Q; [| reflexivity].
    apply token_equals_string in Q. contradiction. }
  apply accepts_sub_secret in S. apply Z.ltb_ge in G.
  unfold request_task. cbn [serve].
  unfold route_post_records, authMiddleware. rewrite NA.
  cbn [bind read_cache turn]. rewrite S.
  unfold post_records_handler. cbn [userRole with_userRole bind now_ms read_cache turn].
  rewrite G. unfold insert_record. cbn [bind await turn body with_userRole].
  eexists. reflexivity.
Qed.

(** The first turn of a read route on a cache without records stops at the
    three reads of a resync, with the cache and the environment untouched. *)
Lemma turn_cold_read (rt : Route) (req : Request) (c : LocalCache) (e : E) :
  rt = GetRecords \/ rt = GetAliases ->
  records c = [] ->
  exists p,
    turn (request_task pw rt req) c e = (p, (c, e))
    /\ awaited p = sync_reads.
Proof.
  intros [-> | ->] R; unfold request_task; cbn [serve];
    unfold route_get_records, get_records_handler,
      route_get_aliases, get_aliases_handler, await_call, sync;
    cbn [bind read_cache turn]; rewrite R; cbn [List.length Z.of_nat Z.ltb Z.compare
      andb bind turn]; eexists; split; reflexivity.
Qed.

(** X9.  The cooldown check and the timestamp update are separate steps
    with the insert between them.  When two sub-admin requests arrive one
    after the other before any task is resumed, and each reads a clock
    value past the cooldown, both pass the check: both tasks are waiting
    for their insert and the stored timestamp is still the old one,
    however close together the two arrived. *)
Theorem throttle_check_is_not_atomic (l : Loop E) (first second : Request) :
  let last := lastSubActionTime (shared l) in
  let t1 := fst (date_now (outside l)) in
  let t2 := fst (date_now (snd (date_now (outside l)))) in
  let l' := event_loop pw l [Arrive PostRecords first; Arrive PostRecords second] in
  x_admin_token first <> Some (ADMIN_PASSWORD pw) ->
  sub_secret_matches (shared l) (x_admin_token first) ->
  x_admin_token second <> Some (ADMIN_PASSWORD pw) ->
  sub_secret_matches (shared l) (x_admin_token second) ->
  COOLDOWN <= t1 - last ->
  COOLDOWN <= t2 - last ->
  shared l' = shared l
  /\ map awaited (pool l')
     = map awaited (pool l)
       ++ [[InsertRecord (body first)]; [InsertRecord (body second)]].
Proof.
  cbv zeta. intros N1 S1 N2 S2 G1 G2.
  destruct (turn_post_records_passes first (shared l) (outside l) N1 S1 G1)
    as [k1 T1].
  destruct (turn_post_records_passes second (shared l) (snd (date_now (outside l)))
              N2 S2 G2) as [k2 T2].
  unfold event_loop. cbn [fold_left loop_step].
  rewrite T1. cbn [shared outside pool delivered]. rewrite T2.
  cbn [shared pool]. split; [reflexivity |].
  rewrite !map_app. cbn [map awaited]. now rewrite <- app_assoc.
Qed.

(** X10.  No reload is shared.  From start-up on, as long as no task has
    been resumed, every GET /api/records and GET /api/aliases that arrives
    finds the cache without records and starts a resync of its own: after
    [n] such arrivals [n + 1] tasks are each waiting for the same three
    reads, and the cache is still as created. *)
Theorem cold_reads_each_reload (e : E) (schedule : list Event) :
  Forall (fun ev => exists req,
            ev = Arrive GetRecords req \/ ev = Arrive GetAliases req) schedule ->
  let l := event_loop pw (booted e) schedule in
  shared l = LocalCache_init
  /\ outside l = e
  /\ map awaited (pool l) = repeat sync_reads (S (List.length schedule)).
Proof.
  intros F. cbv zeta.
  assert (G : forall (l0 : Loop E) n,
             shared l0 = LocalCache_init -> outside l0 = e ->
             map awaited (pool l0) = repeat sync_reads n ->
             shared (event_loop pw l0 schedule) = LocalCache_init
             /\ outside (event_loop pw l0 schedule) = e
             /\ map awaited (pool (event_loop pw l0 schedule))
                = repeat sync_reads (List.length schedule + n)).
  { induction F as [| ev rest (req & Hev) _ IH]; intros l0 n C O P.
    - now cbn.
    - unfold event_loop in *. cbn [fold_left List.length].
      assert (Step : shared (loop_step pw l0 ev) = LocalCache_init
                     /\ outside (loop_step pw l0 ev) = e
                     /\ map awaited (pool (loop_step pw l0 ev))
                        = repeat sync_reads (S n)).
      { assert (Cold : exists rt, ev = Arrive rt req
                                  /\ (rt = GetRecords \/ rt = GetAliases)).
        { destruct Hev as [-> | ->]; eexists; split; eauto. }
        destruct Cold as (rt & -> & Hrt).
        destruct (turn_cold_read rt req (shared l0) (outside l0) Hrt)
          as (p & T & A); [now rewrite C |].
        cbn [loop_step]. rewrite T. cbn [shared outside pool].
        split; [exact C | split; [exact O |]].
        rewrite map_app. cbn [map repeat]. rewrite A, repeat_cons.
        f_equal. exact P. }
      destruct Step as (C' & O' & P').
      destruct (IH _ _ C' O' P') as (C2 & O2 & P2).
      repeat split; auto. rewrite P2. f_equal. lia. }
  assert (B : shared (booted e) = LocalCache_init /\ outside (booted e) = e
              /\ map awaited (pool (booted e)) = repeat sync_reads 1).
  { unfold booted, startup_task, sync.
    cbn [bind read_cache turn LocalCache_init records List.length Z.of_nat Z.ltb
           Z.compare andb negb shared outside pool map awaited repeat].
    auto. }
  destruct B as (C & O & P).
  destruct (G _ _ C O P) as (C2 & O2 & P2).
  repeat split; auto. rewrite P2. f_equal. lia.
Qed.

End LoopExtras.

(* ================================================================== *)
(** ** The server without the cache, and the two copies side by side *)
(* ================================================================== *)

Section UncachedFacts.

Context {E : Type} {Env : Environment E}.
Variable pw : option string.

Lemma run_uncached_authMiddleware (req : Request)
    (next : Request -> prog Uncached.Response) (w : World E) :
  run (Uncached.authMiddleware pw req next) w =
    if token_strict_equals (x_admin_token req) (JStr (ADMIN_PASSWORD pw)) then
      run (next req) w
    else (Uncached.fail 401 Uncached.WrongPassword, w).
Proof.
  unfold Uncached.authMiddleware. now destruct (token_strict_equals _ _).
Qed.

Ltac uncached_handlers :=
  unfold Uncached.login_handler, Uncached.get_records_handler,
    Uncached.post_records_handler, Uncached.get_aliases_handler,
    Uncached.post_aliases_handler, Uncached.delete_record_handler,
    Uncached.put_record_handler, Uncached.catch500;
  cbn [run bind await];
  repeat match goal with
    | |- context [match write_error ?r with _ => _ end] =>
        destruct (write_error r) eqn:?
    | |- context [match rows_error ?r with _ => _ end] =>
        destruct (rows_error r) eqn:?
    | |- context [match rows_data ?r with _ => _ end] =>
        destruct (rows_data r) as [[| ? ?] |] eqn:?
    | |- context [if String.eqb ?a ?b then _ else _] => destruct (String.eqb a b) eqn:?
    | |- context [if nullish ?b then _ else _] =>
        destruct (nullish b) eqn:?; cbn [run bind await]
    end;
  cbn [run fst snd].

(** X11.  The uncached server makes at most one store call per request
    and never touches the cache.  On the routes behind its
    [authMiddleware] (all but the two GET routes) every token other than
    the super-admin secret, a cached sub-admin password included, is
    answered 401 and no call is made at all. *)
Theorem uncached_one_query (rt : Uncached.Route) (req : Request) (w : World E) :
  let result := run (Uncached.serve pw rt req) w in
  cache (snd result) = cache w
  /\ (exists new, issued (snd result) = issued w ++ new
                  /\ (List.length new <= 1)%nat)
  /\ (Uncached.guarded rt = true ->
      x_admin_token req <> Some (ADMIN_PASSWORD pw) ->
      result = (Uncached.fail 401 Uncached.WrongPassword, w)).
Proof.
  cbv zeta. split; [| split].
  - destruct rt; cbn [Uncached.serve]; rewrite ?run_uncached_authMiddleware;
      try destruct (token_strict_equals _ _); uncached_handlers; reflexivity.
  - destruct rt; cbn [Uncached.serve]; rewrite ?run_uncached_authMiddleware;
      try destruct (token_strict_equals _ _); uncached_handlers;
      cbn [issued after_query];
      first [ exists []; split; [now rewrite app_nil_r | cbn; lia]
            | eexists [_]; split; [reflexivity | cbn; lia] ].
  - intros G N.
    assert (NA : token_strict_equals (x_admin_token req) (JStr (ADMIN_PASSWORD pw))
                 = false).
    { destruct (token_strict_equals _ _) eqn:Q; [| reflexivity].
      apply token_equals_string in Q. contradiction. }
    destruct rt; try discriminate G; cbn [Uncached.serve];
      now rewrite run_uncached_authMiddleware, NA.
Qed.

(** X12.  PUT /api/records/:id of the uncached server, for a body that has
    properties: exactly one update, with the route parameter as a string,
    whatever the parameter looks like.  An error is answered 500 with its
    message, zero rows 404 (also for an all-digits parameter: there is no
    retry), a row 200 with that row, and [data] null without an error 500
    because reading its length raises. *)
Theorem uncached_put_single_attempt (req : Request) (w : World E) :
  let q := UpdateRecord (js_delete "id" (body req)) (JStr (params_id req)) in
  let reply := answer q w in
  let result := run (Uncached.put_record_handler req) w in
  nullish (body req) = false ->
  snd result = after_query q w
  /\ issued (snd result) = issued w ++ [q]
  /\ (forall error, rows_error reply = Some error ->
      fst result = Uncached.fail 500 (Uncached.Thrown (message error)))
  /\ (rows_error reply = None ->
      (rows_data reply = Some [] ->
         fst result = Uncached.fail 404 Uncached.NotFoundOrForbidden)
      /\ (forall r others, rows_data reply = Some (r :: others) ->
          fst result = Uncached.json (Uncached.SuccessRecord r))
      /\ (rows_data reply = None ->
          fst result = Uncached.fail 500 Uncached.NoLength)).
Proof.
  cbv zeta. intros B. unfold Uncached.put_record_handler. rewrite B.
  cbn [run bind await]. unfold Uncached.catch500.
  split; [| split; [| split]].
  - destruct (rows_error _); [reflexivity |].
    now destruct (rows_data _) as [[| ? ?] |].
  - destruct (rows_error _); [reflexivity |].
    now destruct (rows_data _) as [[| ? ?] |].
  - intros error H. now rewrite H.
  - intros H. rewrite H. split; [| split].
    + intros D. now rewrite D.
    + intros r others D. now rewrite D.
    + intros D. now rewrite D.
Qed.

(** X13.  GET /api/records in the two copies, on a cache without records,
    against the same store.  When the read returns rows without an error
    both answer 200 with those rows.  When the read fails, the uncached
    server answers 500 with the error's message, while the cached server
    answers 200 with an empty array. *)
Theorem records_read_in_both_copies (req : Request) (w : World E) :
  let reply := answer SelectRecords w in
  let direct := fst (run (Uncached.serve pw Uncached.GetRecords req) w) in
  let cached := fst (run (serve pw GetRecords req) w) in
  records (cache w) = [] ->
  (forall rows, rows_data reply = Some rows -> rows_error reply = None ->
     direct = Uncached.json (Uncached.DataBody (Some rows))
     /\ cached = json (RecordsBody rows))
  /\ (forall error, rows_error reply = Some error -> rows_data reply = None ->
      direct = Uncached.fail 500 (Uncached.Thrown (message error))
      /\ cached = json (RecordsBody [])).
Proof.
  cbv zeta. intros R. cbn [Uncached.serve serve].
  unfold route_get_records. rewrite run_get_records_handler. cbv zeta.
  rewrite run_sync_lazy, R. cbn [snd fst]. rewrite cache_resynced.
  cbn [records loaded]. unfold data_or_empty, Uncached.get_records_handler.
  cbn [run bind await]. split.
  - intros rows D H. now rewrite D, H.
  - intros error H D. now rewrite D, H.
Qed.

(** X14.  GET /api/aliases of the uncached server always answers 200, with
    the stored value when there is a row and its value is truthy, and with
    [{}] when there is no row or the stored value is falsy (null, false,
    0 or the empty string). *)
Theorem uncached_aliases_default (req : Request) (w : World E) :
  let reply := answer (SelectSettingValue "mahjong_aliases") w in
  let result := run (Uncached.serve pw Uncached.GetAliases req) w in
  Uncached.status (fst result) = 200
  /\ (single_data reply = None ->
      fst result = Uncached.json (Uncached.ValueBody (JObj [])))
  /\ (forall row, single_data reply = Some row ->
      (truthy (value row) = true ->
         fst result = Uncached.json (Uncached.ValueBody (value row)))
      /\ (truthy (value row) = false ->
          fst result = Uncached.json (Uncached.ValueBody (JObj [])))).
Proof.
  cbv zeta. cbn [Uncached.serve]. unfold Uncached.get_aliases_handler.
  cbn [run bind await fst]. split; [reflexivity |]. split.
  - intros D. now rewrite D.
  - intros row D. rewrite D. split; intros T; now rewrite T.
Qed.

(** X15.  What the cache and the second role left unchanged.  As long as
    no usable sub-admin password is cached (it is null, undefined or the
    empty string), login, record insert, alias write and record delete
    answer every request with the same status code in both copies. *)
Theorem copies_agree_without_sub_admin (rt : Uncached.Route) (req : Request)
    (w : World E) :
  subAdminPwd (cache w) = JNull \/ subAdminPwd (cache w) = JUndefined
  \/ subAdminPwd (cache w) = JStr "" ->
  rt = Uncached.PostLogin \/ rt = Uncached.PostRecords
  \/ rt = Uncached.PostAliases \/ rt = Uncached.DeleteRecordById ->
  Uncached.status (fst (run (Uncached.serve pw rt req) w))
  = status (fst (run (serve pw (successor rt) req) w)).
Proof.
  intros P Hrt.
  assert (NS : (truthy (subAdminPwd (cache w))
                && token_strict_equals (x_admin_token req) (subAdminPwd (cache w)))%bool
               = false).
  { destruct (_ && _)%bool eqn:Q; [| reflexivity].
    apply accepts_sub_secret in Q. now apply no_sub_secret in Q. }
  destruct Hrt as [-> | [-> | [-> | ->]]];
    cbn [Uncached.serve successor serve];
    unfold route_login, route_post_records, route_post_aliases, route_delete_record;
    rewrite run_uncached_authMiddleware, run_authMiddleware, NS;
    destruct (token_strict_equals _ (JStr _)); try reflexivity;
    rewrite ?run_requireSuperAdmin; cbn [userRole with_userRole];
    rewrite ?run_login_handler, ?run_post_records_handler, ?run_post_aliases_handler,
      ?run_delete_record_handler;
    cbn [userRole with_userRole body params_id]; cbv zeta;
    rewrite ?run_insert_record; cbv zeta; cbn [body with_userRole];
    uncached_handlers; reflexivity.
Qed.

End UncachedFacts.

(* ================================================================== *)
(** ** The further theorems on concrete requests *)
(* ================================================================== *)

(** Login with the cached sub-admin password reports 'sub_admin'. *)
Lemma login_reports_role_witness :
  fst (run (route_login None (login_as "abc123"))
           (world (cache_with (JStr "abc123") 0) (quiet [])))
  = json (SuccessRole sub_admin).
Proof.
  destruct (login_reports_role None (login_as "abc123")
              (world (cache_with (JStr "abc123") 0) (quiet [])))
    as (_ & _ & S & _).
  apply S. split.
  - discriminate.
  - exists "abc123". split; [reflexivity | split; [discriminate | reflexivity]].
Defined.

(** GET /api/aliases on a populated cache answers the cached aliases and
    leaves the world alone; on a fresh cache, with no aliases row in the
    store, it answers [{}]. *)
Lemma get_aliases_never_fails_witness :
  run (route_get_aliases (login_as "")) (world (cache_with JNull 0) (quiet []))
  = (json (ValueBody (JObj [])), world (cache_with JNull 0) (quiet []))
  /\ fst (run (route_get_aliases (login_as "")) (world LocalCache_init (quiet [])))
     = json (ValueBody (JObj [])).
Proof.
  split.
  - destruct (get_aliases_never_fails (login_as "")
                (world (cache_with JNull 0) (quiet []))) as (_ & P & _).
    apply P. discriminate.
  - destruct (get_aliases_never_fails (login_as "")
                (world LocalCache_init (quiet []))) as (_ & _ & C).
    destruct (C ltac:(reflexivity)) as (_ & D). apply D. reflexivity.
Defined.

(** The super-admin writes aliases: a store that accepts answers success
    after the upsert and the three reads; a store that times out answers
    500 with its message. *)
Lemma aliases_replaced_wholesale_witness :
  issued (snd (run (route_post_aliases None admin_aliases)
                   (world LocalCache_init (quiet []))))
  = UpsertSetting "mahjong_aliases" new_aliases :: sync_reads
  /\ fst (run (route_post_aliases None admin_aliases)
              (world LocalCache_init (refusing timeout_error [])))
     = fail 500 (Thrown "canceling statement due to statement timeout").
Proof.
  split.
  - destruct (aliases_replaced_wholesale None admin_aliases
                (world LocalCache_init (quiet [])) ltac:(reflexivity)) as (_ & S).
    destruct (S ltac:(reflexivity)) as (_ & I & _). exact I.
  - destruct (aliases_replaced_wholesale None admin_aliases
                (world LocalCache_init (refusing timeout_error [])) ltac:(reflexivity))
      as (F & _).
    rewrite (F timeout_error ltac:(reflexivity)). reflexivity.
Defined.

(** The super-admin sets the password 'abc123': the store reads it back and
    the cache holds it.  A null body is answered 500. *)
Lemma sub_password_stored_witness :
  subAdminPwd
    (cache (snd (run (route_sub_password None
                        (admin_password (JObj [("password", JStr "abc123")])))
                     (world LocalCache_init
                        (with_settings [mkSingle None None; found (JStr "abc123")]
                                       [])))))
  = JStr "abc123"
  /\ run (route_sub_password None (admin_password JNull))
         (world LocalCache_init (quiet []))
     = (fail 500 NoProperties, world LocalCache_init (quiet [])).
Proof.
  split.
  - destruct (sub_password_stored None
                (admin_password (JObj [("password", JStr "abc123")]))
                (world LocalCache_init
                   (with_settings [mkSingle None None; found (JStr "abc123")] []))
                ltac:(reflexivity)) as (_ & S).
    destruct (S ltac:(reflexivity)) as (_ & OK).
    destruct (OK ltac:(reflexivity)) as (_ & _ & P). exact P.
  - destruct (sub_password_stored None (admin_password JNull)
                (world LocalCache_init (quiet [])) ltac:(reflexivity)) as (N & _).
    exact (N ltac:(reflexivity)).
Defined.

(** After the password 'abc123' was set, login with it gives 'sub_admin'
    and login with the old password 'old' gives 401; after the empty
    password was set, login with the empty token gives 401. *)
Lemma new_password_takes_effect_witness :
  fst (run (route_login None (login_as "abc123"))
           (snd (run (route_sub_password None
                        (admin_password (JObj [("password", JStr "abc123")])))
                     (world (cache_with (JStr "old") 0)
                        (with_settings [mkSingle None None; found (JStr "abc123")]
                                       [])))))
  = json (SuccessRole sub_admin)
  /\ fst (run (route_login None (login_as "old"))
           (snd (run (route_sub_password None
                        (admin_password (JObj [("password", JStr "abc123")])))
                     (world (cache_with (JStr "old") 0)
                        (with_settings [mkSingle None None; found (JStr "abc123")]
                                       [])))))
     = fail 401 BadPassword
  /\ fst (run (route_login None (login_as ""))
           (snd (run (route_sub_password None
                        (admin_password (JObj [("password", JStr "")])))
                     (world (cache_with (JStr "old") 0)
                        (with_settings [mkSingle None None; found (JStr "")]
                                       [])))))
     = fail 401 BadPassword.
Proof.
  split; [| split].
  - destruct (new_password_takes_effect None
                (admin_password (JObj [("password", JStr "abc123")]))
                (login_as "abc123")
                (world (cache_with (JStr "old") 0)
                   (with_settings [mkSingle None None; found (JStr "abc123")] []))
                ltac:(reflexivity) ltac:(reflexivity) ltac:(reflexivity) ltac:(discriminate)) as (A & _).
    rewrite (A "abc123" ltac:(reflexivity) ltac:(discriminate) ltac:(reflexivity)). reflexivity.
  - destruct (new_password_takes_effect None
                (admin_password (JObj [("password", JStr "abc123")]))
                (login_as "old")
                (world (cache_with (JStr "old") 0)
                   (with_settings [mkSingle None None; found (JStr "abc123")] []))
                ltac:(reflexivity) ltac:(reflexivity) ltac:(reflexivity) ltac:(discriminate)) as (_ & R & _).
    rewrite (R "abc123" ltac:(reflexivity) ltac:(discriminate)). reflexivity.
  - destruct (new_password_takes_effect None
                (admin_password (JObj [("password", JStr "")]))
                (login_as "")
                (world (cache_with (JStr "old") 0)
                   (with_settings [mkSingle None None; found (JStr "")] []))
                ltac:(reflexivity) ltac:(reflexivity) ltac:(reflexivity) ltac:(discriminate)) as (_ & _ & D).
    rewrite (D ltac:(right; reflexivity)). reflexivity.
Defined.

(** Five minutes after the last sub-admin write the wait reported is
    between one and ten minutes. *)
Lemma remaining_minutes_bounds_witness :
  exists remaining,
    fst (run (post_records_handler (as_role sub_admin sub_admin_post))
             (world (cache_with (JStr "abc123") noon) (quiet [noon + 300000])))
    = fail 429 (TooFrequent remaining)
    /\ 1 <= remaining <= 10.
Proof.
  destruct (remaining_minutes_bounds (as_role sub_admin sub_admin_post)
              (world (cache_with (JStr "abc123") noon) (quiet [noon + 300000]))
              ltac:(reflexivity) ltac:(reflexivity))
    as (remaining & R & L & U).
  exists remaining. rewrite R. split; [reflexivity |].
  split; [exact L |]. apply U. vm_compute. discriminate.
Defined.

(** A sub-admin writes at [noon] (stamped a millisecond later) and writes
    again five minutes on: the second request is answered 429. *)
Lemma back_to_back_writes_witness :
  lastSubActionTime
    (cache (snd (run (route_post_records None sub_admin_post)
                     (world (cache_with (JStr "abc123") 0)
                        (with_settings [mkSingle None None; found (JStr "abc123")]
                                       [noon; noon + 1; noon + 300000])))))
  = noon + 1
  /\ exists remaining,
      fst (run (route_post_records None sub_admin_post)
             (snd (run (route_post_records None sub_admin_post)
                     (world (cache_with (JStr "abc123") 0)
                        (with_settings [mkSingle None None; found (JStr "abc123")]
                                       [noon; noon + 1; noon + 300000])))))
      = fail 429 (TooFrequent remaining).
Proof.
  destruct (back_to_back_writes None sub_admin_post sub_admin_post
              (world (cache_with (JStr "abc123") 0)
                 (with_settings [mkSingle None None; found (JStr "abc123")]
                                [noon; noon + 1; noon + 300000])))
    as (S & T & _).
  - discriminate.
  - exists "abc123". split; [reflexivity | split; [discriminate | reflexivity]].
  - reflexivity.
  - discriminate.
  - exists "abc123". split; [reflexivity | split; [discriminate | reflexivity]].
  - split; [exact S |].
    destruct T as (remaining & R); [reflexivity |].
    exists remaining. rewrite R. reflexivity.
Defined.

(** A forced resync against a store whose three reads all fail: records,
    aliases and password fall back to their defaults, and the sub-admin
    password that was cached is no longer accepted. *)
Lemma failed_reads_reset_cache_witness :
  snapshot (cache (snd (run (sync true)
                          (world (cache_with (JStr "abc123") noon)
                             (answering [mkRows None (Some timeout_error)])))))
  = ([], JObj [], JNull)
  /\ fst (run (route_login None (login_as "abc123"))
              (snd (run (sync true)
                      (world (cache_with (JStr "abc123") noon)
                         (answering [mkRows None (Some timeout_error)])))))
     = fail 401 BadPassword.
Proof.
  destruct (failed_reads_reset_cache None (login_as "abc123") login_handler
              (world (cache_with (JStr "abc123") noon)
                 (answering [mkRows None (Some timeout_error)])))
    as (R & A & P & _).
  destruct (P ltac:(reflexivity)) as (Q & L).
  split.
  - unfold snapshot.
    rewrite (R ltac:(reflexivity)), (A ltac:(reflexivity)), Q. reflexivity.
  - unfold route_login. rewrite L; [reflexivity | discriminate].
Defined.

(** Two sub-admin requests in the same millisecond: both wait for their
    insert. *)
Lemma throttle_check_is_not_atomic_witness :
  map awaited
      (pool (event_loop None idle_loop
               [Arrive PostRecords sub_admin_post; Arrive PostRecords sub_admin_post]))
  = [[InsertRecord new_game]; [InsertRecord new_game]].
Proof.
  destruct (throttle_check_is_not_atomic None idle_loop sub_admin_post sub_admin_post)
    as (_ & P).
  - discriminate.
  - exists "abc123". split; [reflexivity | split; [discriminate | reflexivity]].
  - discriminate.
  - exists "abc123". split; [reflexivity | split; [discriminate | reflexivity]].
  - vm_compute. discriminate.
  - vm_compute. discriminate.
  - exact P.
Defined.

(** Two reads arriving right after start-up: three resyncs are pending. *)
Lemma cold_reads_each_reload_witness :
  map awaited
      (pool (event_loop None (booted (quiet []))
               [Arrive GetRecords (login_as ""); Arrive GetAliases (login_as "")]))
  = [sync_reads; sync_reads; sync_reads].
Proof.
  destruct (cold_reads_each_reload None (quiet [])
              [Arrive GetRecords (login_as ""); Arrive GetAliases (login_as "")])
    as (_ & _ & P).
  - constructor; [exists (login_as ""); now left |].
    constructor; [exists (login_as ""); now right | constructor].
  - exact P.
Defined.

(** The uncached server does not know the sub-admin password: 401, and
    nothing is sent to the store. *)
Lemma uncached_one_query_witness :
  run (Uncached.serve None Uncached.PostRecords sub_admin_post)
      (world (cache_with (JStr "abc123") 0) (quiet []))
  = (Uncached.fail 401 Uncached.WrongPassword,
     world (cache_with (JStr "abc123") 0) (quiet [])).
Proof.
  destruct (uncached_one_query None Uncached.PostRecords sub_admin_post
              (world (cache_with (JStr "abc123") 0) (quiet []))) as (_ & _ & G).
  apply G; [reflexivity | discriminate].
Defined.

(** The uncached PUT /api/records/42 against a store with nothing under
    the string '42': 404 after one update. *)
Lemma uncached_put_single_attempt_witness :
  fst (run (Uncached.put_record_handler put_42)
           (world LocalCache_init (answering [mkRows (Some []) None])))
  = Uncached.fail 404 Uncached.NotFoundOrForbidden
  /\ issued (snd (run (Uncached.put_record_handler put_42)
                      (world LocalCache_init (answering [mkRows (Some []) None]))))
     = [UpdateRecord updates_42 (JStr "42")].
Proof.
  destruct (uncached_put_single_attempt put_42
              (world LocalCache_init (answering [mkRows (Some []) None]))
              ltac:(reflexivity)) as (_ & I & _ & N).
  destruct (N ltac:(reflexivity)) as (Z & _).
  split; [apply Z; reflexivity | exact I].
Defined.

(** The same failing records read: 500 from the uncached server, 200 with
    an empty array from the cached one. *)
Lemma records_read_in_both_copies_witness :
  fst (run (Uncached.serve None Uncached.GetRecords (login_as ""))
           (world LocalCache_init (answering [mkRows None (Some timeout_error)])))
  = Uncached.fail 500
      (Uncached.Thrown "canceling statement due to statement timeout")
  /\ fst (run (serve None GetRecords (login_as ""))
              (world LocalCache_init (answering [mkRows None (Some timeout_error)])))
     = json (RecordsBody []).
Proof.
  destruct (records_read_in_both_copies None (login_as "")
              (world LocalCache_init (answering [mkRows None (Some timeout_error)]))
              ltac:(reflexivity)) as (_ & F).
  exact (F timeout_error ltac:(reflexivity) ltac:(reflexivity)).
Defined.

(** The uncached GET /api/aliases with the number 0 stored as aliases. *)
Lemma uncached_aliases_default_witness :
  fst (run (Uncached.serve None Uncached.GetAliases (login_as ""))
           (world LocalCache_init (with_settings [found (JNum 0)] [])))
  = Uncached.json (Uncached.ValueBody (JObj [])).
Proof.
  destruct (uncached_aliases_default None (login_as "")
              (world LocalCache_init (with_settings [found (JNum 0)] [])))
    as (_ & _ & R).
  destruct (R (mkSettingRow (JNum 0)) ltac:(reflexivity)) as (_ & F).
  apply F. reflexivity.
Defined.

(** A super-admin insert with no sub-admin password set: the same status
    from both copies. *)
Lemma copies_agree_without_sub_admin_witness :
  Uncached.status
    (fst (run (Uncached.serve None Uncached.PostRecords admin_post)
              (world (cache_with JNull 0) (quiet []))))
  = status (fst (run (serve None PostRecords admin_post)
                     (world (cache_with JNull 0) (quiet [])))).
Proof.
  apply (copies_agree_without_sub_admin None Uncached.PostRecords admin_post
           (world (cache_with JNull 0) (quiet []))).
  - left. reflexivity.
  - right. left. reflexivity.
Defined.

(** A PUT for a record that is not there: 404, and the cache is as before. *)
Lemma errors_leave_cache_witness :
  cache (snd (run (serve None PutRecordById put_42)
                  (world (cache_with JNull 0)
                     (answering [mkRows (Some []) None; mkRows (Some []) None]))))
  = cache_with JNull 0.
Proof.
  apply (errors_leave_cache None PutRecordById put_42
           (world (cache_with JNull 0)
              (answering [mkRows (Some []) None; mkRows (Some []) None]))).
  vm_compute. discriminate.
Defined.

(** A sub-admin's accepted insert is what moved the timestamp. *)
Lemma only_sub_admin_insert_stamps_witness :
  PostRecords = PostRecords
  /\ fst (run (serve None PostRecords sub_admin_post)
              (world (cache_with (JStr "abc123") 0) (quiet [noon; noon + 1])))
     = json Success
  /\ x_admin_token sub_admin_post <> Some (ADMIN_PASSWORD None)
  /\ sub_secret_matches (cache_with (JStr "abc123") 0) (x_admin_token sub_admin_post).
Proof.
  apply (only_sub_admin_insert_stamps None PostRecords sub_admin_post
           (world (cache_with (JStr "abc123") 0) (quiet [noon; noon + 1]))).
  vm_compute. discriminate.
Defined.

(** An unknown token on GET /api/records causes the three reads only; a
    sub-admin's POST /api/records causes its insert and the three reads. *)
Lemma queries_by_role_witness :
  (exists new,
     issued (snd (run (serve None GetRecords (login_as "guess"))
                      (world LocalCache_init (quiet []))))
     = [] ++ new
     /\ Forall (fun q => is_read q = true) new)
  /\ (exists new,
        issued (snd (run (serve None PostRecords sub_admin_post)
                         (world (cache_with (JStr "abc123") 0) (quiet [noon; noon + 1]))))
        = [] ++ new
        /\ Forall (fun q => is_read q = true \/ q = InsertRecord new_game) new).
Proof.
  split.
  - destruct (queries_by_role None GetRecords (login_as "guess")
                (world LocalCache_init (quiet [])) ltac:(discriminate)) as (R & _).
    apply R. intros (s & Q & _). discriminate Q.
  - destruct (queries_by_role None PostRecords sub_admin_post
                (world (cache_with (JStr "abc123") 0) (quiet [noon; noon + 1]))
                ltac:(discriminate)) as (_ & S).
    apply S. exists "abc123".
    split; [reflexivity | split; [discriminate | reflexivity]].
Defined.

(** PUT /api/records/abc against a store that rejects 'abc': the first
    error is reported, after one update. *)
Lemma first_attempt_decides_witness :
  run (put_record_handler put_abc)
      (world LocalCache_init (answering [mkRows None (Some bad_uuid)]))
  = (fail 500 (Thrown "invalid input syntax for type uuid"),
     {| cache := LocalCache_init; env := answering [];
        issued := [UpdateRecord updates_42 (JStr "abc")] |}).
Proof.
  destruct (first_attempt_decides put_abc
              (world LocalCache_init (answering [mkRows None (Some bad_uuid)]))
              ltac:(reflexivity) ltac:(left; reflexivity)) as (F & _).
  exact (F bad_uuid ltac:(reflexivity)).
Defined.
